(** * AxisAtom: shape inference, validation and gradient assembly

    A shallow embedding of [cvxpy/atoms/axis_atom.py] (class [AxisAtom]).
    The Python methods become functions on a record; exceptions become the
    [Raised] branch of a result type; the calls into numpy and scipy.sparse
    that the methods make are modelled in the modules [Numpy] and [Sparse].

    Numbers held in arrays (Python floats) are taken in [Z]: the methods only
    move them around, add them and compare them with zero.  The index arrays
    built with [np.linspace] are kept rational, as numpy computes them, and
    cast to integers where scipy casts them. *)

From Stdlib Require Import ZArith QArith Lia List.
From stdpp Require Import base option list gmap.
Import ListNotations.

(** ** Python results: a value, or a raised exception *)

Module Py.

Inductive exn : Type :=
| ValueError
| AttributeError
| IndexError.

Inductive result (A : Type) : Type :=
| Returned (a : A)
| Raised (e : exn).
Arguments Returned {A} a.
Arguments Raised {A} e.

Definition bind {A B : Type} (r : result A) (k : A -> result B) : result B :=
  match r with
  | Returned a => k a
  | Raised e => Raised e
  end.

(** State of a [for] loop whose body may execute [return]. *)
Inductive ctl (S R : Type) : Type :=
| Continue (s : S)
| Return (r : R).
Arguments Continue {S R} s.
Arguments Return {S R} r.

(** [for i in items: body], threading the loop variable(s) [s]. *)
Fixpoint for_in {S R : Type} (items : list nat)
    (body : nat -> S -> result (ctl S R)) (s : S) : result (ctl S R) :=
  match items with
  | [] => Returned (Continue s)
  | i :: rest =>
      match body i s with
      | Returned (Continue s') => for_in rest body s'
      | Returned (Return r) => Returned (Return r)
      | Raised e => Raised e
      end
  end.

(** [range(n)] *)
Definition range (n : nat) : list nat := seq 0 n.

(** [l[i]] on a Python list *)
Definition getitem {A : Type} (l : list A) (i : nat) : result A :=
  match nth_error l i with
  | Some a => Returned a
  | None => Raised IndexError
  end.

End Py.
Import Py.

Notation "'let*' x ':=' r 'in' k" := (Py.bind r (fun x => k))
  (at level 10, x name, r at level 100, k at level 200, only parsing).

(** ** The numpy calls the class makes *)

Module Numpy.

(** A 2-D array: its shape and its entries by (row, column). *)
Record ndarray : Type := mk_ndarray {
  shape0 : nat;
  shape1 : nat;
  item : nat -> nat -> Z
}.

Definition size (a : ndarray) : nat := shape0 a * shape1 a.

(** [a.T], [np.transpose(a)] *)
Definition transpose (a : ndarray) : ndarray :=
  {| shape0 := shape1 a; shape1 := shape0 a; item := fun r c => item a c r |}.

(** Row [r] of [a], as the list of its entries. *)
Definition row_entries (a : ndarray) (r : nat) : list Z :=
  map (item a r) (seq 0 (shape1 a)).

(** The entries of [a] in C (row-major) order, the order [np.reshape] reads. *)
Definition ravel (a : ndarray) : list Z :=
  flat_map (row_entries a) (seq 0 (shape0 a)).

(** [np.reshape(a, (k, 1))]: a column of [k] entries; fails when [a] does
    not hold [k] entries.  The column is given by its entries. *)
Definition reshape_column (a : ndarray) (k : nat) : result (list Z) :=
  if Nat.eqb (size a) k then Returned (ravel a) else Raised ValueError.

(** Column [i] of [a], as the list of its entries. *)
Definition col_entries (a : ndarray) (i : nat) : list Z :=
  map (fun r => item a r i) (seq 0 (shape0 a)).

(** [a[:, i]]: column [i], a vector of [shape0 a] entries. *)
Definition get_column (a : ndarray) (i : nat) : result (list Z) :=
  if Nat.ltb i (shape1 a) then Returned (col_entries a i) else Raised IndexError.

(** [np.array(d)[0]]: the first row of a 2-D array. *)
Definition first_row (d : ndarray) : result (list Z) :=
  if Nat.ltb 0 (shape0 d) then Returned (row_entries d 0) else Raised IndexError.

(** [x.T] on a Python object that may be [None]: [None] has no attribute
    [T]. *)
Definition attr_T (x : option ndarray) : result (option ndarray) :=
  match x with
  | Some a => Returned (Some (transpose a))
  | None => Raised AttributeError
  end.

(** [np.linspace(start, stop, num)]: [num] evenly spaced samples, the
    last one being [stop]; [start + k * ((stop - start) / (num - 1))]. *)
Definition linspace (start stop : Q) (num : nat) : list Q :=
  match num with
  | 0%nat => []
  | 1%nat => [start]
  | _ =>
      let step := ((stop - start) / inject_Z (Z.of_nat num - 1))%Q in
      map (fun k => (start + inject_Z (Z.of_nat k) * step)%Q) (seq 0 num)
  end.

(** [np.ones((k))] *)
Definition ones (k : nat) : list Q := repeat 1%Q k.

(** [a * x] for an array [a] and a number [x] *)
Definition scale (a : list Q) (x : Q) : list Q := map (fun y => (y * x)%Q) a.

(** Cast of a float to an integer index type: truncation towards zero. *)
Definition astype_int (q : Q) : Z := Z.quot (Qnum q) (Zpos (Qden q)).

End Numpy.
Import Numpy.

(** ** The scipy.sparse calls the class makes *)

Module Sparse.

(** A sparse matrix: its shape and its stored entries.  An entry that is
    not stored is zero. *)
Record csc_matrix : Type := mk_csc {
  shape : nat * nat;
  stored : gmap (nat * nat) Z
}.

(** The entry of [A] at row [r], column [c]. *)
Definition get (A : csc_matrix) (r c : nat) : Z :=
  default 0%Z (stored A !! (r, c)).

(** [sp.csc_matrix((M, N), dtype=np.float)]: the all-zero matrix of that
    shape ([np.float] being the float type of the numpy the class was
    written for). *)
Definition csc_empty (shp : nat * nat) : csc_matrix :=
  {| shape := shp; stored := ∅ |}.

Definition cells (a : ndarray) : list ((nat * nat) * Z) :=
  flat_map (fun r => map (fun c => ((r, c), item a r c)) (seq 0 (shape1 a)))
           (seq 0 (shape0 a)).

(** [sp.csc_matrix(D)] for a dense [D]: same shape, the nonzero entries
    are stored. *)
Definition csc_of_dense (a : ndarray) : csc_matrix :=
  {| shape := (shape0 a, shape1 a);
     stored := list_to_map (filter (fun kv => snd kv <> 0%Z) (cells a)) |}.

Definition index_ok (dim : nat) (x : Z) : bool :=
  (0 <=? x)%Z && (x <? Z.of_nat dim)%Z.

(** One triple of the coordinate format; entries given twice are summed. *)
Definition put (acc : gmap (nat * nat) Z) (t : Z * (Z * Z)) : gmap (nat * nat) Z :=
  let k := (Z.to_nat (fst (snd t)), Z.to_nat (snd (snd t))) in
  <[k := (default 0%Z (acc !! k) + fst t)%Z]> acc.

(** [sp.csc_matrix((vals, (row, col)), shape=shp)]: the index arrays are
    cast to an integer type; arrays of different lengths, or an index
    outside the shape, are a [ValueError]. *)
Definition csc_of_triples (vals : list Z) (row col : list Q) (shp : nat * nat)
    : result csc_matrix :=
  let row := map astype_int row in
  let col := map astype_int col in
  if negb (Nat.eqb (length vals) (length row) && Nat.eqb (length vals) (length col))
  then Raised ValueError
  else if negb (forallb (index_ok (fst shp)) row && forallb (index_ok (snd shp)) col)
  then Raised ValueError
  else Returned {| shape := shp;
                   stored := fold_left put (combine vals (combine row col)) ∅ |}.

(** Entry of a sum; a zero result is not stored. *)
Definition add_entry (x y : option Z) : option Z :=
  match x, y with
  | None, None => None
  | _, _ =>
      let s := (default 0 x + default 0 y)%Z in
      if Z.eqb s 0 then None else Some s
  end.

(** [A + B]: the shapes must agree. *)
Definition csc_add (A B : csc_matrix) : result csc_matrix :=
  if decide (shape A = shape B)
  then Returned {| shape := shape A; stored := merge add_entry (stored A) (stored B) |}
  else Raised ValueError.

End Sparse.
Import Sparse.

(** ** The class *)

Module AxisAtom.

(** An instance: [self.axis] ([None] or an integer), the size of the
    operand [self.args[0].size], and the subclass's [_column_grad].

    [_column_grad] receives a slice, given here by its entries in order
    (numpy hands it over as a 1-D array, or as an [(m*n, 1)] column when the
    axis is [None]), and returns [None] or a 2-D array, the gradient as a
    column. *)
Record t : Type := mk {
  axis : option Z;
  arg0_size : nat * nat;
  _column_grad : list Z -> option ndarray
}.

Definition size_from_args (self : t) : nat * nat :=
  match axis self with
  | None => (1, 1)%nat
  | Some a =>
      if Z.eqb a 0 then (1%nat, snd (arg0_size self))
      else (fst (arg0_size self), 1%nat)
  end.

Definition get_data (self : t) : list (option Z) := [axis self].

Definition validate_arguments (self : t) : result unit :=
  match axis self with
  | None => Returned tt
  | Some a =>
      if negb (existsb (Z.eqb a) [0; 1]%Z)
      then Raised ValueError
      else Returned tt
  end.

(** The row indices of slice [i] when [axis == 0]:
    [np.linspace(i*n, i*n+m-1, m)]. *)
Definition row_axis0 (m n i : nat) : list Q :=
  linspace (inject_Z (Z.of_nat i * Z.of_nat n))
           (inject_Z (Z.of_nat i * Z.of_nat n + Z.of_nat m - 1))
           m.

(** The row indices of slice [i] otherwise:
    [np.linspace(i, i+(n-1)*m, n)]. *)
Definition row_axis1 (m n i : nat) : list Q :=
  linspace (inject_Z (Z.of_nat i))
           (inject_Z (Z.of_nat i + (Z.of_nat n - 1) * Z.of_nat m))
           n.

(** The column indices of slice [i], [np.ones((k))*i]. *)
Definition col_axis (k i : nat) : list Q :=
  scale (ones k) (inject_Z (Z.of_nat i)).

Definition _axis_grad (self : t) (values : list ndarray)
    : result (list (option csc_matrix)) :=
  let m := fst (arg0_size self) in
  let n := snd (arg0_size self) in
  match axis self with
  | None =>
      let* v0 := getitem values 0 in
      let* value := reshape_column (transpose v0) (m * n) in
      let D := _column_grad self value in
      let D := match D with
               | Some D' => Some (csc_of_dense D')
               | None => None
               end in
      Returned [D]
  | Some a =>
      if Z.eqb a 0 then
        let D := csc_empty (m * n, n)%nat in
        let* out := for_in (range n) (fun i D =>
          let* v0 := getitem values 0 in
          let* value := get_column v0 i in
          let* d := attr_T (_column_grad self value) in
          match d with
          | None => Returned (Return [None])
          | Some d =>
              let row := row_axis0 m n i in
              let col := col_axis m i in
              let* d0 := first_row d in
              let* E := csc_of_triples d0 row col (m * n, n)%nat in
              let* D := csc_add D E in
              Returned (Continue D)
          end) D in
        match out with
        | Return r => Returned r
        | Continue D => Returned [Some D]
        end
      else
        let* v0 := getitem values 0 in
        let values := transpose v0 in
        let D := csc_empty (m * n, m)%nat in
        let* out := for_in (range m) (fun i D =>
          let* value := get_column values i in
          let* d := attr_T (_column_grad self value) in
          match d with
          | None => Returned (Return [None])
          | Some d =>
              let row := row_axis1 m n i in
              let col := col_axis n i in
              let* d0 := first_row d in
              let* E := csc_of_triples d0 row col (m * n, m)%nat in
              let* D := csc_add D E in
              Returned (Continue D)
          end) D in
        match out with
        | Return r => Returned r
        | Continue D => Returned [Some D]
        end
  end.

End AxisAtom.
Import AxisAtom.

(** ** Auxiliary definitions for the proofs *)

(** What the triples of a coordinate list contribute at position [k]. *)
Definition key_of (t : Z * (Z * Z)) : nat * nat :=
  (Z.to_nat (fst (snd t)), Z.to_nat (snd (snd t))).

Fixpoint weight (k : nat * nat) (ts : list (Z * (Z * Z))) : Z :=
  match ts with
  | [] => 0
  | t :: ts => (if decide (key_of t = k) then fst t else 0) + weight k ts
  end%Z.

(** The triples of one slice: values [vals j] at rows [f j] of the single
    column [c0]. *)
Definition slice_triple (vals : nat -> Z) (f : nat -> nat) (c0 j : nat)
    : Z * (Z * Z) :=
  (vals j, (Z.of_nat (f j), Z.of_nat c0)).

(** What both loops of [_axis_grad] do with the slice [value] once it is
    extracted: call the primitive, transpose, test for [None], build the
    slice's sparse matrix and add it to [D]. *)
Definition slice_step (prim : list Z -> option ndarray) (value : list Z)
    (row col : list Q) (shp : nat * nat) (D : csc_matrix)
    : result (ctl csc_matrix (list (option csc_matrix))) :=
  let* d := attr_T (prim value) in
  match d with
  | None => Returned (Return [None])
  | Some d =>
      let* d0 := first_row d in
      let* E := csc_of_triples d0 row col shp in
      let* D := csc_add D E in
      Returned (Continue D)
  end.

(** The contract of a primitive: on a vector of [k] entries it returns
    [None] or a column of [k] entries. *)
Definition column_contract (prim : list Z -> option ndarray) : Prop :=
  forall x d, prim x = Some d -> shape0 d = length x /\ shape1 d = 1%nat.

(** The entry at [(r, c)] of the matrix that holds, for every column [c]
    of the operand, the derivative of that column at the rows the
    [axis == 0] loop computes for it. *)
Definition placed_axis0 (prim : list Z -> option ndarray) (v : ndarray)
    (m n r c : nat) : Z :=
  if Nat.ltb c n && Nat.leb (c * n) r && Nat.ltb r (c * n + m) then
    match prim (col_entries v c) with
    | Some d => item d (r - c * n) 0
    | None => 0%Z
    end
  else 0%Z.

(** The same for the rows of the operand and the other loop: row [r] of
    the matrix belongs to the slice [r mod m] and holds its entry
    [r / m]. *)
Definition placed_axis1 (prim : list Z -> option ndarray) (v : ndarray)
    (m n r c : nat) : Z :=
  if Nat.ltb c m && Nat.ltb r (m * n) && Nat.eqb (r mod m) c then
    match prim (col_entries (transpose v) c) with
    | Some d => item d (r / m) 0
    | None => 0%Z
    end
  else 0%Z.

(** ** Examples of arrays and primitives *)

Module Examples.

(** The 2-D array with the given rows. *)
Definition array_of_rows (rows : list (list Z)) : ndarray :=
  {| shape0 := length rows;
     shape1 := length (hd [] rows);
     item := fun r c => nth c (nth r rows []) 0%Z |}.

(** The column (a [(k, 1)] array) with the given entries. *)
Definition column_of (l : list Z) : ndarray :=
  {| shape0 := length l; shape1 := 1; item := fun r _ => nth r l 0%Z |}.

(** A primitive that is differentiable everywhere: the gradient of the
    sum of squares halved, the slice itself. *)
Definition grad_id (value : list Z) : option ndarray := Some (column_of value).

(** A primitive that is not differentiable at a vector with a negative
    entry. *)
Definition grad_unless_negative (value : list Z) : option ndarray :=
  if existsb (fun x => (x <? 0)%Z) value then None else Some (column_of value).

(** A primitive that breaks the contract: a single entry, whatever the
    length of the slice. *)
Definition grad_head (value : list Z) : option ndarray :=
  Some (column_of [hd 0%Z value]).

(** A primitive that is differentiable nowhere. *)
Definition grad_none (value : list Z) : option ndarray := None.

End Examples.
Import Examples.

(** From [H : body i s = Returned x], for the body of either loop, to the
    [slice_step] the body runs once its slice is extracted. *)
Ltac enter_body H :=
  repeat match type of H with
  | context [getitem ?l ?i] => destruct (getitem l i); cbn [Py.bind] in H
  | context [get_column ?a ?i] => destruct (get_column a i); cbn [Py.bind] in H
  end;
  try discriminate H;
  match type of H with
  | _ = Returned ?x =>
      match type of H with
      | context [attr_T (?prim ?value)] =>
          match type of H with
          | context [csc_of_triples _ ?row ?col ?shp] =>
              match type of H with
              | context [csc_add ?D _] =>
                  change (slice_step prim value row col shp D = Returned x) in H
              end
          end
      end
  end.

(** ** Index arrays *)

Section IndexArrays.

Lemma astype_int_inject (q : Q) (z : Z) :
  (q == inject_Z z)%Q -> astype_int q = z.
Proof.
  unfold Qeq, astype_int. cbn [inject_Z Qnum Qden]. intros H.
  rewrite Z.mul_1_r in H. rewrite H. apply Z.quot_mul. discriminate.
Qed.

(** [linspace] from [a] to [a + (num-1)*s] yields the arithmetic
    progression of offset [a] and step [s]. *)
Lemma linspace_cast (a s : Z) (num : nat) :
  map astype_int
      (linspace (inject_Z a) (inject_Z (a + (Z.of_nat num - 1) * s)) num)
  = map (fun k => (a + Z.of_nat k * s)%Z) (seq 0 num).
Proof.
  destruct num as [|[|num]]; [reflexivity | |].
  - cbn. f_equal. apply astype_int_inject.
    unfold Qeq. cbn [inject_Z Qnum Qden]. lia.
  - unfold linspace. rewrite map_map. apply map_ext. intros k.
    apply astype_int_inject.
    set (c := (Z.of_nat (S (S num)) - 1)%Z).
    assert (Hc : ~ (inject_Z c == 0)%Q).
    { unfold Qeq. cbn [inject_Z Qnum Qden]. subst c. lia. }
    rewrite !inject_Z_plus, !inject_Z_mult. field. exact Hc.
Qed.

Lemma row_axis0_cast (m n i : nat) :
  map astype_int (row_axis0 m n i)
  = map (fun k => Z.of_nat (i * n + k)) (seq 0 m).
Proof.
  unfold row_axis0.
  replace (Z.of_nat i * Z.of_nat n + Z.of_nat m - 1)%Z
    with (Z.of_nat i * Z.of_nat n + (Z.of_nat m - 1) * 1)%Z by lia.
  rewrite linspace_cast. apply map_ext. intros k. lia.
Qed.

Lemma row_axis1_cast (m n i : nat) :
  map astype_int (row_axis1 m n i)
  = map (fun k => Z.of_nat (i + k * m)) (seq 0 n).
Proof.
  unfold row_axis1. rewrite linspace_cast. apply map_ext. intros k. lia.
Qed.

Lemma col_axis_cast (k i : nat) :
  map astype_int (col_axis k i) = repeat (Z.of_nat i) k.
Proof.
  unfold col_axis, scale, ones. rewrite map_map.
  induction k as [|k IH]; [reflexivity|].
  cbn [repeat map]. rewrite IH. f_equal.
  apply astype_int_inject. ring.
Qed.

(** With [axis == 1] the rows of slice [i] are the residue class of [i]
    modulo [m]: distinct slices have disjoint rows. *)
Lemma axis1_rows_residue (m n i : nat) (r : Z) :
  (i < m)%nat -> In r (map astype_int (row_axis1 m n i)) ->
  (r mod Z.of_nat m = Z.of_nat i)%Z.
Proof.
  intros Hi Hr. rewrite row_axis1_cast in Hr.
  apply in_map_iff in Hr as (j & <- & _).
  rewrite Nat2Z.inj_add, Nat2Z.inj_mul, Z.mod_add by lia.
  apply Z.mod_small. lia.
Qed.

Lemma axis1_rows_disjoint (m n i i' : nat) (r : Z) :
  (i < m)%nat -> (i' < m)%nat -> i <> i' ->
  In r (map astype_int (row_axis1 m n i)) ->
  ~ In r (map astype_int (row_axis1 m n i')).
Proof.
  intros Hi Hi' Hne Hr Hr'.
  apply axis1_rows_residue in Hr, Hr'; [lia | done | done].
Qed.

(** With [axis == 0] the rows of distinct slices are disjoint when the
    operand has no more rows than columns... *)
Lemma axis0_rows_disjoint (m n i i' : nat) (r : Z) :
  (m <= n)%nat -> i <> i' ->
  In r (map astype_int (row_axis0 m n i)) ->
  ~ In r (map astype_int (row_axis0 m n i')).
Proof.
  intros Hmn Hne Hr Hr'. rewrite row_axis0_cast in Hr, Hr'.
  apply in_map_iff in Hr as (j & <- & Hj), Hr' as (j' & E & Hj').
  apply in_seq in Hj, Hj'. nia.
Qed.

(** ... and consecutive slices share a row when it has more. *)
Lemma axis0_rows_overlap (m n i : nat) :
  (n < m)%nat ->
  In (Z.of_nat (S i * n)) (map astype_int (row_axis0 m n i)) /\
  In (Z.of_nat (S i * n)) (map astype_int (row_axis0 m n (S i))).
Proof.
  intros Hnm. rewrite !row_axis0_cast. split; apply in_map_iff.
  - exists n. split; [f_equal; lia | apply in_seq; lia].
  - exists 0%nat. split; [f_equal; lia | apply in_seq; lia].
Qed.

(** ... while a row of the last slice lies outside the [m*n] rows of the
    matrix when it has fewer. *)
Lemma axis0_last_row_outside (m n : nat) :
  (1 <= m)%nat -> (m < n)%nat ->
  In (Z.of_nat ((n - 1) * n + (m - 1)))
     (map astype_int (row_axis0 m n (n - 1))) /\
  (m * n <= (n - 1) * n + (m - 1))%nat.
Proof.
  intros Hm Hmn. rewrite row_axis0_cast. split; [|nia].
  apply in_map_iff. exists (m - 1)%nat. split; [done | apply in_seq; lia].
Qed.

End IndexArrays.

(** ** Sparse matrices *)

Section SparseFacts.

Lemma get_csc_empty (shp : nat * nat) (r c : nat) :
  get (csc_empty shp) r c = 0%Z.
Proof. unfold get, csc_empty. cbn. by rewrite lookup_empty. Qed.

Lemma csc_add_spec (A B : csc_matrix) :
  shape A = shape B ->
  exists C, csc_add A B = Returned C /\ shape C = shape A /\
    forall r c, get C r c = (get A r c + get B r c)%Z.
Proof.
  intros H. unfold csc_add. destruct (decide _) as [_|]; [|done].
  eexists. split; [reflexivity|]. split; [reflexivity|].
  intros r c. unfold get. cbn. rewrite lookup_merge.
  destruct (stored A !! (r, c)) as [x|], (stored B !! (r, c)) as [y|];
    cbn; try reflexivity.
  - destruct (Z.eqb_spec (x + y) 0) as [->|]; reflexivity.
  - destruct (Z.eqb_spec (x + 0) 0) as [->|]; reflexivity.
  - destruct (Z.eqb_spec (0 + y) 0) as [->|]; reflexivity.
Qed.

Lemma elem_of_cells (a : ndarray) (r c : nat) (v : Z) :
  ((r, c), v) ∈ cells a <-> (r < shape0 a)%nat /\ (c < shape1 a)%nat /\ v = item a r c.
Proof.
  rewrite list_elem_of_In. unfold cells. rewrite in_flat_map. split.
  - intros (r' & Hr & Hin). apply in_map_iff in Hin as (c' & Heq & Hc).
    apply in_seq in Hr, Hc. injection Heq as -> -> <-. lia.
  - intros (Hr & Hc & ->). exists r. split; [apply in_seq; lia|].
    apply in_map_iff. exists c. split; [reflexivity | apply in_seq; lia].
Qed.

(** Converting a dense array to the sparse format keeps its shape and
    every entry. *)
Lemma get_csc_of_dense (a : ndarray) (r c : nat) :
  get (csc_of_dense a) r c
  = if Nat.ltb r (shape0 a) && Nat.ltb c (shape1 a) then item a r c else 0%Z.
Proof.
  unfold get, csc_of_dense. cbn [stored].
  destruct (_ !! (r, c)) as [v|] eqn:E; cbn [default].
  - apply elem_of_list_to_map_2, list_elem_of_filter in E as [_ E].
    apply elem_of_cells in E as (Hr & Hc & ->).
    apply Nat.ltb_lt in Hr, Hc. by rewrite Hr, Hc.
  - destruct (Nat.ltb_spec r (shape0 a)) as [Hr|]; [|done].
    destruct (Nat.ltb_spec c (shape1 a)) as [Hc|]; [|done]. cbn.
    destruct (decide (item a r c = 0%Z)) as [->|Hnz]; [done|].
    rewrite (elem_of_list_to_map_1' _ (r, c) (item a r c)) in E; [done| |].
    + intros y Hy. apply list_elem_of_filter in Hy as [_ Hy].
      by apply elem_of_cells in Hy as (_ & _ & ->).
    + apply list_elem_of_filter. split; [exact Hnz|].
      by apply elem_of_cells.
Qed.

Lemma fold_put_lookup (ts : list (Z * (Z * Z))) (acc : gmap (nat * nat) Z)
    (k : nat * nat) :
  default 0%Z (fold_left put ts acc !! k)
  = (default 0%Z (acc !! k) + weight k ts)%Z.
Proof.
  revert acc. induction ts as [|t ts IH]; intros acc; cbn [fold_left weight].
  - lia.
  - rewrite IH. unfold put. fold (key_of t). rewrite lookup_insert.
    destruct (decide (key_of t = k)) as [->|].
    + change (default 0%Z (Some ?x)) with x. lia.
    + lia.
Qed.

Lemma combine_slice (vals : list Z) (f : nat -> nat) (c0 a k : nat) :
  length vals = k ->
  combine vals (combine (map (fun j => Z.of_nat (f j)) (seq a k))
                        (repeat (Z.of_nat c0) k))
  = map (slice_triple (fun j => nth (j - a) vals 0%Z) f c0) (seq a k).
Proof.
  revert a k. induction vals as [|v vals IH]; intros a k <-; [reflexivity|].
  cbn [length seq map repeat combine]. f_equal.
  - unfold slice_triple. replace (a - a)%nat with 0%nat by lia. reflexivity.
  - rewrite IH by reflexivity. apply map_ext_in. intros j Hj.
    apply in_seq in Hj. unfold slice_triple.
    replace (j - a)%nat with (S (j - S a)) by lia. reflexivity.
Qed.

Section Slice.
Variables (vals : nat -> Z) (f : nat -> nat) (c0 : nat).

Local Abbreviation triple := (slice_triple vals f c0).

Lemma key_of_triple (j : nat) : key_of (triple j) = (f j, c0).
Proof. unfold key_of, slice_triple. cbn. by rewrite !Nat2Z.id. Qed.

Lemma weight_miss (a k r c : nat) :
  c <> c0 \/ (forall j, (a <= j < a + k)%nat -> f j <> r) ->
  weight (r, c) (map triple (seq a k)) = 0%Z.
Proof.
  revert a. induction k as [|k IH]; intros a H; [reflexivity|].
  cbn [seq map weight]. rewrite key_of_triple, IH.
  - destruct (decide ((f a, c0) = (r, c))) as [E|]; [|reflexivity].
    injection E as Er Ec. destruct H as [H|H]; [congruence|].
    exfalso. apply (H a); [lia | exact Er].
  - destruct H as [H|H]; [by left | right].
    intros j Hj. apply H. lia.
Qed.

Lemma weight_hit (a k j0 : nat) :
  (a <= j0 < a + k)%nat ->
  (forall j j', (a <= j < a + k)%nat -> (a <= j' < a + k)%nat ->
                f j = f j' -> j = j') ->
  weight (f j0, c0) (map triple (seq a k)) = vals j0.
Proof.
  revert a. induction k as [|k IH]; intros a Hj0 Hinj; [lia|].
  cbn [seq map weight]. rewrite key_of_triple.
  change (fst (triple a)) with (vals a).
  destruct (decide (j0 = a)) as [->|Hne].
  - rewrite decide_True by reflexivity.
    rewrite weight_miss; [lia|]. right. intros j Hj E.
    apply Hinj in E; lia.
  - rewrite decide_False.
    + rewrite IH; [lia | lia |]. intros j j' Hj Hj'. apply Hinj; lia.
    + intros E. injection E as E. apply Hinj in E; lia.
Qed.
End Slice.

(** The sparse matrix built from one slice: [k] values placed at the
    distinct rows [f 0 .. f (k-1)] of column [c0]. *)
Lemma csc_of_triples_spec (vals : list Z) (row col : list Q)
    (f : nat -> nat) (c0 k M N : nat) :
  map astype_int row = map (fun j => Z.of_nat (f j)) (seq 0 k) ->
  map astype_int col = repeat (Z.of_nat c0) k ->
  length vals = k ->
  (forall j, (j < k)%nat -> (f j < M)%nat) ->
  ((0 < k)%nat -> (c0 < N)%nat) ->
  (forall j j', (j < k)%nat -> (j' < k)%nat -> f j = f j' -> j = j') ->
  exists E, csc_of_triples vals row col (M, N) = Returned E /\
    shape E = (M, N) /\
    (forall j, (j < k)%nat -> get E (f j) c0 = nth j vals 0%Z) /\
    (forall r c, c <> c0 \/ (forall j, (j < k)%nat -> f j <> r) ->
                 get E r c = 0%Z).
Proof.
  intros Hrow Hcol Hlen Hin Hc0 Hinj. unfold csc_of_triples.
  rewrite Hrow, Hcol, length_map, length_seq, repeat_length, Hlen.
  rewrite Nat.eqb_refl. cbn [andb negb fst snd].
  assert (Hr : forallb (index_ok M) (map (fun j => Z.of_nat (f j)) (seq 0 k)) = true).
  { apply forallb_forall. intros x Hx. apply in_map_iff in Hx as (j & <- & Hj).
    apply in_seq in Hj. specialize (Hin j). unfold index_ok.
    apply andb_true_intro. split; [apply Z.leb_le | apply Z.ltb_lt]; lia. }
  assert (Hc : forallb (index_ok N) (repeat (Z.of_nat c0) k) = true).
  { apply forallb_forall. intros x Hx. assert (0 < k)%nat by (destruct k; [destruct Hx | lia]).
    apply repeat_spec in Hx as ->.
    unfold index_ok. apply andb_true_intro.
    split; [apply Z.leb_le | apply Z.ltb_lt]; lia. }
  rewrite Hr, Hc. cbn [andb negb].
  eexists. split; [reflexivity|]. split; [reflexivity|].
  rewrite combine_slice by exact Hlen. unfold get. cbn [stored]. split.
  - intros j Hj. rewrite fold_put_lookup, lookup_empty. cbn [default].
    rewrite (weight_hit (fun j => nth (j - 0) vals 0%Z) f c0 0 k j);
      [by rewrite Nat.sub_0_r | lia |].
    intros. apply Hinj; [lia | lia | assumption].
  - intros r c H. rewrite fold_put_lookup, lookup_empty. cbn [default].
    rewrite (weight_miss (fun j => nth (j - 0) vals 0%Z) f c0 0 k r c);
      [reflexivity|].
    destruct H as [H|H]; [by left | right]. intros j Hj. apply H. lia.
Qed.

(** What the sparse constructor has checked when it returns. *)
Lemma csc_of_triples_returned (vals : list Z) (row col : list Q)
    (f : nat -> nat) (c0 k M N : nat) (E : csc_matrix) :
  map astype_int row = map (fun j => Z.of_nat (f j)) (seq 0 k) ->
  map astype_int col = repeat (Z.of_nat c0) k ->
  csc_of_triples vals row col (M, N) = Returned E ->
  length vals = k /\
  (forall j, (j < k)%nat -> (f j < M)%nat) /\
  ((0 < k)%nat -> (c0 < N)%nat).
Proof.
  intros Hrow Hcol. unfold csc_of_triples. rewrite Hrow, Hcol.
  rewrite length_map, length_seq, repeat_length. cbn [fst snd].
  destruct (Nat.eqb_spec (length vals) k) as [Hlen|]; [|done].
  cbn [andb negb].
  destruct (forallb (index_ok M) _) eqn:Hr; [|done].
  destruct (forallb (index_ok N) _) eqn:Hc; [|done].
  intros _. split; [exact Hlen|]. split.
  - intros j Hj. rewrite forallb_forall in Hr.
    specialize (Hr (Z.of_nat (f j))). unfold index_ok in Hr.
    rewrite andb_true_iff, Z.ltb_lt in Hr. apply Nat2Z.inj_lt, Hr.
    apply in_map_iff. exists j. split; [done | apply in_seq; lia].
  - intros Hk. rewrite forallb_forall in Hc.
    specialize (Hc (Z.of_nat c0)). unfold index_ok in Hc.
    rewrite andb_true_iff, Z.ltb_lt in Hc. apply Nat2Z.inj_lt, Hc.
    destruct k; [lia | apply in_eq].
Qed.

(** The sparse constructor and the sum fail with [ValueError] only. *)
Lemma csc_of_triples_raised (vals : list Z) (row col : list Q)
    (shp : nat * nat) (e : exn) :
  csc_of_triples vals row col shp = Raised e -> e = ValueError.
Proof.
  unfold csc_of_triples.
  repeat match goal with |- context [if ?b then _ else _] => destruct b end;
    congruence.
Qed.

Lemma csc_add_raised (A B : csc_matrix) (e : exn) :
  csc_add A B = Raised e -> e = ValueError.
Proof. unfold csc_add. destruct (decide _); congruence. Qed.

(** A row index outside the shape is refused. *)
Lemma csc_of_triples_out_of_range (vals : list Z) (row col : list Q)
    (M N : nat) (x : Z) :
  In x (map astype_int row) -> index_ok M x = false ->
  csc_of_triples vals row col (M, N) = Raised ValueError.
Proof.
  intros Hx Hbad. unfold csc_of_triples. cbn [fst snd].
  destruct (negb (_ && _)); [reflexivity|].
  destruct (forallb (index_ok M) (map astype_int row)) eqn:E; [|reflexivity].
  rewrite forallb_forall in E. specialize (E x Hx). congruence.
Qed.

End SparseFacts.

(** ** Loops *)

Section Loops.
Context {St R : Type}.
Implicit Types body : nat -> St -> result (ctl St R).

(** A body that always continues and keeps an invariant indexed by the
    loop counter runs the loop to its end. *)
Lemma for_in_seq_inv body (P : nat -> St -> Prop) (a k : nat) (s0 : St) :
  P a s0 ->
  (forall i s, (a <= i < a + k)%nat -> P i s ->
     exists s', body i s = Returned (Continue s') /\ P (S i) s') ->
  exists s, for_in (seq a k) body s0 = Returned (Continue s) /\ P (a + k)%nat s.
Proof.
  revert a s0. induction k as [|k IH]; intros a s0 H0 Hstep.
  - exists s0. rewrite Nat.add_0_r. by split.
  - cbn [seq for_in]. destruct (Hstep a s0) as (s' & -> & Hs'); [lia | done |].
    destruct (IH (S a) s') as (s & Hs & HP); [done | |].
    + intros i s Hi. apply Hstep. lia.
    + exists s. split; [done|]. by replace (a + S k)%nat with (S a + k)%nat by lia.
Qed.

(** The same invariant, for a loop that is known to have run to its end. *)
Lemma for_in_seq_partial body (P : nat -> St -> Prop) (a k : nat) (s0 s : St) :
  P a s0 ->
  (forall i s s', (a <= i < a + k)%nat -> P i s ->
     body i s = Returned (Continue s') -> P (S i) s') ->
  for_in (seq a k) body s0 = Returned (Continue s) -> P (a + k)%nat s.
Proof.
  revert a s0. induction k as [|k IH]; intros a s0 H0 Hstep; cbn [seq for_in].
  - intros [= <-]. by rewrite Nat.add_0_r.
  - destruct (body a s0) as [[s'|r']|e] eqn:E; [|done|done].
    intros H. replace (a + S k)%nat with (S a + k)%nat by lia.
    apply (IH (S a) s'); [|intros i t t' Hi; apply Hstep; lia|exact H].
    apply (Hstep a s0 s'); [lia | done | done].
Qed.

(** A loop returns from inside only if its body does. *)
Lemma for_in_return body (items : list nat) (s0 : St) (r : R) :
  for_in items body s0 = Returned (Return r) ->
  exists i s, body i s = Returned (Return r).
Proof.
  revert s0. induction items as [|i items IH]; intros s0; cbn [for_in]; [done|].
  destruct (body i s0) as [[s'|r']|e] eqn:E; [apply IH | | done].
  intros [= ->]. by exists i, s0.
Qed.

(** An invariant of the body holds of the state the loop ends in. *)
Lemma for_in_continue body (P : St -> Prop) (items : list nat) (s0 s : St) :
  P s0 ->
  (forall i s s', P s -> body i s = Returned (Continue s') -> P s') ->
  for_in items body s0 = Returned (Continue s) -> P s.
Proof.
  intros H0 Hstep. revert s0 H0.
  induction items as [|i items IH]; intros s0 H0; cbn [for_in].
  - by intros [= <-].
  - destruct (body i s0) as [[s'|r']|e] eqn:E; [|done|done].
    apply IH. by eapply Hstep.
Qed.

Lemma for_in_ext body body' (items : list nat) (s0 : St) :
  (forall i s, In i items -> body i s = body' i s) ->
  for_in items body s0 = for_in items body' s0.
Proof.
  revert s0. induction items as [|i items IH]; intros s0 H; [done|].
  cbn [for_in]. rewrite <- H by apply in_eq.
  destruct (body i s0) as [[s'|r']|e]; [|done|done].
  apply IH. intros j s Hj. apply H. by apply in_cons.
Qed.

(** A loop whose steps continue or raise [e], one of them raising [e]
    whatever the state, raises [e]. *)
Lemma for_in_raises body (e : exn) (items : list nat) (s0 : St) :
  (forall i s, In i items ->
     (exists s', body i s = Returned (Continue s')) \/ body i s = Raised e) ->
  (exists i0, In i0 items /\ forall s, body i0 s = Raised e) ->
  for_in items body s0 = Raised e.
Proof.
  revert s0. induction items as [|i items IH]; intros s0 Hstep (i0 & Hi0 & Hbad).
  - destruct Hi0.
  - cbn [for_in]. destruct (Hstep i s0 (in_eq _ _)) as [(s' & Hs)|Hs];
      rewrite Hs; [|done].
    destruct Hi0 as [<-|Hi0]; [by rewrite Hbad in Hs|].
    apply IH; [|by exists i0].
    intros j s Hj. apply Hstep. by apply in_cons.
Qed.

End Loops.

(** ** One slice of the gradient *)

Section SliceStep.
Variable prim : list Z -> option ndarray.

Lemma nth_map_seq (g : nat -> Z) (k j : nat) :
  (j < k)%nat -> nth j (map g (seq 0 k)) 0%Z = g j.
Proof.
  intros H. rewrite nth_indep with (d' := g 0%nat)
    by (rewrite length_map, length_seq; lia).
  rewrite map_nth, seq_nth by lia. reflexivity.
Qed.

Lemma length_row_entries (a : ndarray) (r : nat) :
  length (row_entries a r) = shape1 a.
Proof. unfold row_entries. by rewrite length_map, length_seq. Qed.

Lemma first_row_transpose (d : ndarray) :
  (1 <= shape1 d)%nat -> first_row (transpose d) = Returned (col_entries d 0).
Proof.
  intros H. unfold first_row. cbn [transpose shape0].
  destruct (Nat.ltb_spec 0 (shape1 d)); [reflexivity | lia].
Qed.

(** The [is None] test of the loops is never taken: [None.T] raises. *)
Lemma slice_step_no_return value row col shp D r :
  slice_step prim value row col shp D <> Returned (Return r).
Proof.
  unfold slice_step. destruct (prim value) as [d|]; cbn; [|done].
  destruct (first_row _); cbn; [|done].
  destruct (csc_of_triples _ _ _ _); cbn; [|done].
  destruct (csc_add _ _); cbn; done.
Qed.

Lemma slice_step_none value row col shp D :
  prim value = None -> slice_step prim value row col shp D = Raised AttributeError.
Proof. unfold slice_step. by intros ->. Qed.

Lemma slice_step_shape value row col shp D D' :
  slice_step prim value row col shp D = Returned (Continue D') ->
  shape D' = shape D.
Proof.
  unfold slice_step. destruct (prim value) as [d|]; cbn; [|done].
  destruct (first_row _); cbn; [|done].
  destruct (csc_of_triples _ _ _ _); cbn; [|done].
  unfold csc_add. destruct (decide _); cbn; [|done]. by intros [= <-].
Qed.

(** A slice whose primitive returns a column of [k] entries, whose rows
    [f 0 .. f (k-1)] are distinct and inside the matrix, is added to
    column [c0] at exactly those rows. *)
Lemma slice_step_place value (d : ndarray) (row col : list Q)
    (f : nat -> nat) (c0 k M N : nat) (D : csc_matrix) :
  prim value = Some d ->
  shape0 d = k -> (1 <= shape1 d)%nat ->
  shape D = (M, N) ->
  map astype_int row = map (fun j => Z.of_nat (f j)) (seq 0 k) ->
  map astype_int col = repeat (Z.of_nat c0) k ->
  (forall j, (j < k)%nat -> (f j < M)%nat) ->
  ((0 < k)%nat -> (c0 < N)%nat) ->
  (forall j j', (j < k)%nat -> (j' < k)%nat -> f j = f j' -> j = j') ->
  exists D', slice_step prim value row col (M, N) D = Returned (Continue D') /\
    shape D' = (M, N) /\
    (forall j, (j < k)%nat ->
       get D' (f j) c0 = (get D (f j) c0 + item d j 0)%Z) /\
    (forall r c, c <> c0 \/ (forall j, (j < k)%nat -> f j <> r) ->
       get D' r c = get D r c).
Proof.
  intros Hd Hk H1 HD Hrow Hcol Hin Hc0 Hinj. unfold slice_step.
  rewrite Hd. cbn [attr_T Py.bind]. rewrite first_row_transpose by exact H1.
  cbn [Py.bind].
  destruct (csc_of_triples_spec (col_entries d 0) row col f c0 k M N)
    as (E & -> & HE & Hhit & Hmiss); try assumption.
  { unfold col_entries. by rewrite length_map, length_seq. }
  cbn [Py.bind].
  destruct (csc_add_spec D E) as (D' & -> & HD' & Hsum); [congruence|].
  cbn [Py.bind]. exists D'. split; [reflexivity|]. split; [congruence|]. split.
  - intros j Hj. rewrite Hsum, Hhit by exact Hj. f_equal.
    unfold col_entries. rewrite nth_map_seq by lia. reflexivity.
  - intros r c H. rewrite Hsum, Hmiss by exact H. lia.
Qed.

(** Conversely, a step that continues has received a column of [k]
    entries from the primitive and has added it at those rows. *)
Lemma slice_step_returned value (row col : list Q)
    (f : nat -> nat) (c0 k M N : nat) (D D' : csc_matrix) :
  slice_step prim value row col (M, N) D = Returned (Continue D') ->
  shape D = (M, N) ->
  map astype_int row = map (fun j => Z.of_nat (f j)) (seq 0 k) ->
  map astype_int col = repeat (Z.of_nat c0) k ->
  (forall j j', (j < k)%nat -> (j' < k)%nat -> f j = f j' -> j = j') ->
  exists d, prim value = Some d /\ shape0 d = k /\ (1 <= shape1 d)%nat /\
    shape D' = (M, N) /\
    (forall j, (j < k)%nat ->
       get D' (f j) c0 = (get D (f j) c0 + item d j 0)%Z) /\
    (forall r c, c <> c0 \/ (forall j, (j < k)%nat -> f j <> r) ->
       get D' r c = get D r c).
Proof.
  intros H HD Hrow Hcol Hinj.
  assert (Hfacts : exists d, prim value = Some d /\ shape0 d = k /\
            (1 <= shape1 d)%nat /\
            (forall j, (j < k)%nat -> (f j < M)%nat) /\
            ((0 < k)%nat -> (c0 < N)%nat)).
  { unfold slice_step in H. destruct (prim value) as [d|]; [|discriminate H].
    cbn [attr_T Py.bind] in H. unfold first_row in H. cbn [transpose shape0] in H.
    destruct (Nat.ltb_spec 0 (shape1 d)) as [H1|]; [|discriminate H].
    cbn [Py.bind] in H.
    destruct (csc_of_triples _ row col (M, N)) as [E|] eqn:HE; [|discriminate H].
    destruct (csc_of_triples_returned _ _ _ f c0 k M N E Hrow Hcol HE)
      as (Hlen & Hin & Hc0).
    exists d. repeat split; try done.
    rewrite length_row_entries in Hlen. exact Hlen. }
  destruct Hfacts as (d & Hd & Hk & H1 & Hin & Hc0).
  destruct (slice_step_place value d row col f c0 k M N D
              Hd Hk H1 HD Hrow Hcol Hin Hc0 Hinj)
    as (D'' & HD'' & Hsh & Hhit & Hmiss).
  rewrite H in HD''. injection HD'' as <-.
  exists d. repeat split; assumption.
Qed.

(** A slice with a row index outside the matrix is refused. *)
Lemma slice_step_out_of_range value (d : ndarray) (row col : list Q)
    (M N : nat) (D : csc_matrix) (x : Z) :
  prim value = Some d -> (1 <= shape1 d)%nat ->
  In x (map astype_int row) -> index_ok M x = false ->
  slice_step prim value row col (M, N) D = Raised ValueError.
Proof.
  intros Hd H1 Hx Hbad. unfold slice_step. rewrite Hd. cbn [attr_T Py.bind].
  rewrite first_row_transpose by exact H1. cbn [Py.bind].
  by rewrite (csc_of_triples_out_of_range _ _ _ _ _ x).
Qed.

(** A slice whose primitive returns a gradient is added to the matrix,
    or refused with [ValueError]. *)
Lemma slice_step_some value (d : ndarray) (row col : list Q)
    (shp : nat * nat) (D : csc_matrix) :
  prim value = Some d -> (1 <= shape1 d)%nat ->
  (exists D', slice_step prim value row col shp D = Returned (Continue D')) \/
  slice_step prim value row col shp D = Raised ValueError.
Proof.
  intros Hd H1. unfold slice_step. rewrite Hd. cbn [attr_T Py.bind].
  rewrite first_row_transpose by exact H1. cbn [Py.bind].
  destruct (csc_of_triples _ _ _ _) as [E|e] eqn:HE; cbn [Py.bind].
  - destruct (csc_add D E) as [D'|e] eqn:HD'; cbn [Py.bind]; [left; by eexists|].
    right. by apply csc_add_raised in HD' as ->.
  - right. by apply csc_of_triples_raised in HE as ->.
Qed.

End SliceStep.

(** ** Stitching the slices *)

Section Stitching.
Variables (prim : list Z -> option ndarray) (sl : nat -> list Z).
Variables (rowq colq : nat -> list Q) (f : nat -> nat -> nat).
Variables (k M N : nat).

Hypothesis Hrow : forall i, (i < N)%nat ->
  map astype_int (rowq i) = map (fun j => Z.of_nat (f i j)) (seq 0 k).
Hypothesis Hcol : forall i,
  map astype_int (colq i) = repeat (Z.of_nat i) k.
Hypothesis Hin : forall i j, (i < N)%nat -> (j < k)%nat -> (f i j < M)%nat.
Hypothesis Hinj : forall i j j', (i < N)%nat -> (j < k)%nat -> (j' < k)%nat ->
  f i j = f i j' -> j = j'.
Hypothesis Hprim : forall i, (i < N)%nat ->
  exists d, prim (sl i) = Some d /\ shape0 d = k /\ (1 <= shape1 d)%nat.

(** The loop over [N] slices, each of [k] entries going to the rows
    [f i 0 .. f i (k-1)] of column [i]: the sum accumulated in [D] holds
    every slice's entries at their places and nothing else. *)
Lemma stitch_slices :
  exists D,
    for_in (range N)
      (fun i D => slice_step prim (sl i) (rowq i) (colq i) (M, N) D)
      (csc_empty (M, N))
    = Returned (Continue D) /\
    shape D = (M, N) /\
    (forall i d j, (i < N)%nat -> prim (sl i) = Some d -> (j < k)%nat ->
       get D (f i j) i = item d j 0) /\
    (forall r c, (N <= c)%nat \/ (forall j, (j < k)%nat -> f c j <> r) ->
       get D r c = 0%Z).
Proof.
  pose (P := fun (i : nat) (D : csc_matrix) =>
    shape D = (M, N) /\
    (forall c d j, (c < i)%nat -> prim (sl c) = Some d -> (j < k)%nat ->
       get D (f c j) c = item d j 0) /\
    (forall r c, (i <= c)%nat \/ (forall j, (j < k)%nat -> f c j <> r) ->
       get D r c = 0%Z)).
  destruct (for_in_seq_inv
    (fun i D => slice_step prim (sl i) (rowq i) (colq i) (M, N) D)
    P 0 N (csc_empty (M, N))) as (D & HD & Hsh & Hhit & Hmiss).
  - split; [reflexivity|]. split; [intros; lia|].
    intros. apply get_csc_empty.
  - intros i D Hi (Hsh & Hhit & Hmiss).
    destruct (Hprim i) as (d & Hd & Hk & H1); [lia|].
    assert (HiN : (i < N)%nat) by lia.
    destruct (slice_step_place prim (sl i) d (rowq i) (colq i) (f i) i k M N D
                Hd Hk H1 Hsh (Hrow i HiN) (Hcol i) (fun j => Hin i j HiN)
                (fun _ => HiN) (fun j j' => Hinj i j j' HiN))
      as (D' & HD' & Hsh' & Hhit' & Hmiss').
    exists D'. split; [exact HD'|]. split; [exact Hsh'|]. split.
    + intros c dc j Hc Hdc Hj. destruct (decide (c = i)) as [->|Hne].
      * rewrite Hhit' by exact Hj. rewrite Hmiss by (left; lia).
        replace dc with d by congruence. lia.
      * rewrite Hmiss' by (by left). apply Hhit; [lia | done | done].
    + intros r c H. destruct (decide (c = i)) as [->|Hne].
      * destruct H as [H|H]; [lia|].
        rewrite Hmiss' by (by right). apply Hmiss. left. lia.
      * rewrite Hmiss' by (by left). apply Hmiss.
        destruct H as [H|H]; [left; lia | by right].
  - exists D. split; [exact HD|]. split; [exact Hsh|]. split.
    + intros i d j Hi. apply Hhit. lia.
    + intros r c H. apply Hmiss. destruct H as [H|H]; [left; lia | by right].
Qed.

End Stitching.

Section Stitched.
Variables (prim : list Z -> option ndarray) (sl : nat -> list Z).
Variables (rowq colq : nat -> list Q) (f : nat -> nat -> nat).
Variables (k M N : nat).

Hypothesis Hrow : forall i, (i < N)%nat ->
  map astype_int (rowq i) = map (fun j => Z.of_nat (f i j)) (seq 0 k).
Hypothesis Hcol : forall i,
  map astype_int (colq i) = repeat (Z.of_nat i) k.
Hypothesis Hinj : forall i j j', (i < N)%nat -> (j < k)%nat -> (j' < k)%nat ->
  f i j = f i j' -> j = j'.

(** Conversely, when the loop has run to its end every slice's primitive
    has returned a column of [k] entries, and the matrix holds them at
    their places and nothing else. *)
Lemma stitched_slices (D : csc_matrix) :
  for_in (range N)
    (fun i D => slice_step prim (sl i) (rowq i) (colq i) (M, N) D)
    (csc_empty (M, N))
  = Returned (Continue D) ->
  shape D = (M, N) /\
  (forall i, (i < N)%nat ->
     exists d, prim (sl i) = Some d /\ shape0 d = k /\ (1 <= shape1 d)%nat /\
       forall j, (j < k)%nat -> get D (f i j) i = item d j 0) /\
  (forall r c, (N <= c)%nat \/ (forall j, (j < k)%nat -> f c j <> r) ->
     get D r c = 0%Z).
Proof.
  pose (P := fun (i : nat) (D : csc_matrix) =>
    shape D = (M, N) /\
    (forall c, (c < i)%nat ->
       exists d, prim (sl c) = Some d /\ shape0 d = k /\ (1 <= shape1 d)%nat /\
         forall j, (j < k)%nat -> get D (f c j) c = item d j 0) /\
    (forall r c, (i <= c)%nat \/ (forall j, (j < k)%nat -> f c j <> r) ->
       get D r c = 0%Z)).
  intros H.
  apply (for_in_seq_partial _ P 0 N (csc_empty (M, N)) D) in H.
  - destruct H as (Hsh & Hhit & Hmiss). split; [exact Hsh|]. split.
    + intros i Hi. apply Hhit. lia.
    + intros r c Hc. apply Hmiss. destruct Hc as [Hc|Hc]; [left; lia | by right].
  - split; [reflexivity|]. split; [intros; lia|].
    intros. apply get_csc_empty.
  - intros i D0 D1 Hi (Hsh & Hhit & Hmiss) Hstep.
    assert (HiN : (i < N)%nat) by lia.
    destruct (slice_step_returned prim (sl i) (rowq i) (colq i) (f i) i k M N
                D0 D1 Hstep Hsh (Hrow i HiN) (Hcol i)
                (fun j j' => Hinj i j j' HiN))
      as (d & Hd & Hk & H1 & Hsh' & Hhit' & Hmiss').
    split; [exact Hsh'|]. split.
    + intros c Hc. destruct (decide (c = i)) as [->|Hne].
      * exists d. repeat split; try done. intros j Hj.
        rewrite Hhit' by exact Hj. rewrite Hmiss by (left; lia). lia.
      * destruct (Hhit c) as (dc & Hdc & Hkc & H1c & Hgc); [lia|].
        exists dc. repeat split; try done. intros j Hj.
        rewrite Hmiss' by (by left). by apply Hgc.
    + intros r c Hc. destruct (decide (c = i)) as [->|Hne].
      * destruct Hc as [Hc|Hc]; [lia|].
        rewrite Hmiss' by (by right). apply Hmiss. left. lia.
      * rewrite Hmiss' by (by left). apply Hmiss.
        destruct Hc as [Hc|Hc]; [left; lia | by right].
Qed.

End Stitched.

(** ** The loops of [_axis_grad] *)

Section AxisGrad.
Variables (self : AxisAtom.t) (values : list ndarray) (v : ndarray).
Variables (m n : nat).
Hypothesis Hsize : arg0_size self = (m, n).
Hypothesis Hvalues : nth_error values 0 = Some v.

(** With [axis == 0] the loop runs [slice_step] on the columns of
    [values[0]]. *)
Lemma axis0_loop (D0 : csc_matrix) :
  shape1 v = n ->
  for_in (range n) (fun i D =>
      let* v0 := getitem values 0 in
      let* value := get_column v0 i in
      let* d := attr_T (_column_grad self value) in
      match d with
      | None => Returned (Return [None])
      | Some d =>
          let row := row_axis0 m n i in
          let col := col_axis m i in
          let* d0 := first_row d in
          let* E := csc_of_triples d0 row col (m * n, n)%nat in
          let* D := csc_add D E in
          Returned (Continue D)
      end) D0
  = for_in (range n) (fun i D =>
      slice_step (_column_grad self) (col_entries v i)
                 (row_axis0 m n i) (col_axis m i) (m * n, n)%nat D) D0.
Proof.
  intros Hn. apply for_in_ext. intros i D Hi. apply in_seq in Hi.
  unfold getitem. rewrite Hvalues. cbn [Py.bind].
  unfold get_column. rewrite Hn.
  destruct (Nat.ltb_spec i n); [reflexivity | lia].
Qed.

(** Otherwise it runs [slice_step] on the columns of the transpose. *)
Lemma axis1_loop (D0 : csc_matrix) :
  shape0 v = m ->
  for_in (range m) (fun i D =>
      let* value := get_column (transpose v) i in
      let* d := attr_T (_column_grad self value) in
      match d with
      | None => Returned (Return [None])
      | Some d =>
          let row := row_axis1 m n i in
          let col := col_axis n i in
          let* d0 := first_row d in
          let* E := csc_of_triples d0 row col (m * n, m)%nat in
          let* D := csc_add D E in
          Returned (Continue D)
      end) D0
  = for_in (range m) (fun i D =>
      slice_step (_column_grad self) (col_entries (transpose v) i)
                 (row_axis1 m n i) (col_axis n i) (m * n, m)%nat D) D0.
Proof.
  intros Hm. apply for_in_ext. intros i D Hi. apply in_seq in Hi.
  unfold get_column. cbn [transpose shape1]. rewrite Hm.
  destruct (Nat.ltb_spec i m); [reflexivity | lia].
Qed.

Lemma axis_grad_axis0 :
  axis self = Some 0%Z ->
  shape1 v = n ->
  _axis_grad self values =
    let* out := for_in (range n) (fun i D =>
        slice_step (_column_grad self) (col_entries v i)
                   (row_axis0 m n i) (col_axis m i) (m * n, n)%nat D)
        (csc_empty (m * n, n)%nat) in
    match out with
    | Return r => Returned r
    | Continue D => Returned [Some D]
    end.
Proof.
  intros Hax Hn. unfold _axis_grad. rewrite Hax, Hsize. cbn [fst snd Z.eqb].
  by rewrite axis0_loop.
Qed.

Lemma axis_grad_axis1 (a : Z) :
  axis self = Some a -> a <> 0%Z ->
  shape0 v = m ->
  _axis_grad self values =
    let* out := for_in (range m) (fun i D =>
        slice_step (_column_grad self) (col_entries (transpose v) i)
                   (row_axis1 m n i) (col_axis n i) (m * n, m)%nat D)
        (csc_empty (m * n, m)%nat) in
    match out with
    | Return r => Returned r
    | Continue D => Returned [Some D]
    end.
Proof.
  intros Hax Ha Hm. unfold _axis_grad. rewrite Hax, Hsize. cbn [fst snd].
  destruct (Z.eqb_spec a 0) as [|_]; [done|].
  unfold getitem. rewrite Hvalues. cbn [Py.bind].
  by rewrite axis1_loop.
Qed.

(** A matrix returned by the assembly is the one the loop ended with. *)
Lemma axis_grad_axis0_returned (D : csc_matrix) :
  axis self = Some 0%Z ->
  shape1 v = n ->
  _axis_grad self values = Returned [Some D] ->
  for_in (range n) (fun i D =>
      slice_step (_column_grad self) (col_entries v i)
                 (row_axis0 m n i) (col_axis m i) (m * n, n)%nat D)
      (csc_empty (m * n, n)%nat)
  = Returned (Continue D).
Proof.
  intros Hax Hn. rewrite (axis_grad_axis0 Hax Hn).
  destruct (for_in _ _ _) as [[D'|r]|e] eqn:E; cbn [Py.bind]; [|  |done].
  - by intros [= ->].
  - apply for_in_return in E as (i & D0 & Hb).
    by apply slice_step_no_return in Hb.
Qed.

Lemma axis_grad_axis1_returned (a : Z) (D : csc_matrix) :
  axis self = Some a -> a <> 0%Z ->
  shape0 v = m ->
  _axis_grad self values = Returned [Some D] ->
  for_in (range m) (fun i D =>
      slice_step (_column_grad self) (col_entries (transpose v) i)
                 (row_axis1 m n i) (col_axis n i) (m * n, m)%nat D)
      (csc_empty (m * n, m)%nat)
  = Returned (Continue D).
Proof.
  intros Hax Ha Hm. rewrite (axis_grad_axis1 a Hax Ha Hm).
  destruct (for_in _ _ _) as [[D'|r]|e] eqn:E; cbn [Py.bind]; [|  |done].
  - by intros [= ->].
  - apply for_in_return in E as (i & D0 & Hb).
    by apply slice_step_no_return in Hb.
Qed.

(** An operand with more columns than rows: the assembly along [axis == 0]
    fails, the last slice having a row outside the matrix. *)
Lemma axis0_wide_operand_raises :
  axis self = Some 0%Z ->
  shape1 v = n ->
  (1 <= m)%nat -> (m < n)%nat ->
  (forall i, (i < n)%nat ->
     exists d, _column_grad self (col_entries v i) = Some d /\
               (1 <= shape1 d)%nat) ->
  _axis_grad self values = Raised ValueError.
Proof.
  intros Hax Hn Hm Hmn Hprim. rewrite (axis_grad_axis0 Hax Hn).
  rewrite (for_in_raises _ ValueError); [reflexivity | |].
  - intros i D Hi. apply in_seq in Hi.
    destruct (Hprim i) as (d & Hd & H1); [lia|].
    by apply (slice_step_some _ _ d).
  - exists (n - 1)%nat. split; [apply in_seq; lia|]. intros D.
    destruct (Hprim (n - 1)%nat) as (d & Hd & H1); [lia|].
    destruct (axis0_last_row_outside m n Hm Hmn) as [Hin Hout].
    apply (slice_step_out_of_range _ _ d _ _ _ _ _ _ Hd H1 Hin).
    unfold index_ok. apply andb_false_intro2, Z.ltb_ge. lia.
Qed.

(** A first slice at which the primitive returns [None]: the assembly
    raises [AttributeError]. *)
Lemma axis0_first_slice_none_raises :
  axis self = Some 0%Z ->
  shape1 v = n -> (1 <= n)%nat ->
  _column_grad self (col_entries v 0) = None ->
  _axis_grad self values = Raised AttributeError.
Proof.
  intros Hax Hn H1 Hnone. rewrite (axis_grad_axis0 Hax Hn).
  destruct n as [|n']; [lia|]. cbn [range seq for_in].
  by rewrite slice_step_none.
Qed.

Lemma axis1_first_slice_none_raises (a : Z) :
  axis self = Some a -> a <> 0%Z ->
  shape0 v = m -> (1 <= m)%nat ->
  _column_grad self (col_entries (transpose v) 0) = None ->
  _axis_grad self values = Raised AttributeError.
Proof.
  intros Hax Ha Hm H1 Hnone. rewrite (axis_grad_axis1 a Hax Ha Hm).
  destruct m as [|m']; [lia|]. cbn [range seq for_in].
  by rewrite slice_step_none.
Qed.

End AxisGrad.

(** * The properties *)

(** ** Shape inference, validation, axis tag *)

(** C4. For an operand of size [(m, n)] (whatever [m] and [n], so also for
    [m, n >= 1]) [size_from_args] gives [(1, 1)] when the axis is [None],
    [(1, n)] when it is [0] and [(m, 1)] when it is [1].  The method reads
    the instance and returns a pair: it has no state to change and no way to
    fail. *)
Theorem size_from_args_table (m n : nat) (prim : list Z -> option ndarray) :
  size_from_args (AxisAtom.mk None (m, n) prim) = (1, 1)%nat /\
  size_from_args (AxisAtom.mk (Some 0%Z) (m, n) prim) = (1, n)%nat /\
  size_from_args (AxisAtom.mk (Some 1%Z) (m, n) prim) = (m, 1)%nat.
Proof. repeat split. Qed.

(** C5. [validate_arguments] raises its [ValueError] exactly when the axis
    is none of [None], [0], [1], and returns normally exactly when it is one
    of them. *)
Theorem validate_arguments_iff (self : AxisAtom.t) :
  (validate_arguments self = Raised ValueError <->
     axis self <> None /\ axis self <> Some 0%Z /\ axis self <> Some 1%Z) /\
  (validate_arguments self = Returned tt <->
     axis self = None \/ axis self = Some 0%Z \/ axis self = Some 1%Z).
Proof.
  unfold validate_arguments. destruct (axis self) as [a|].
  - cbn [existsb]. rewrite orb_false_r.
    destruct (Z.eqb_spec a 0) as [->|H0]; [|destruct (Z.eqb_spec a 1) as [->|H1]];
      cbn [orb negb].
    + split; split; try done; [intros (_ & H & _); done | by right; left].
    + split; split; try done; [intros (_ & _ & H); done | by right; right].
    + split; split; try done.
      * intros _. repeat split; congruence.
      * intros [H|[H|H]]; congruence.
  - split; split; try done; [intros (H & _); done | by left].
Qed.

(** C9. [get_data] returns the list whose single element is the stored
    axis, whatever that axis is. *)
Theorem get_data_singleton (self : AxisAtom.t) :
  get_data self = [axis self] /\ length (get_data self) = 1%nat.
Proof. split; reflexivity. Qed.

(** C10. Every axis that is neither [None] nor [0], the values that fail
    validation included, gets the size of the per-row result, [(m, 1)]. *)
Theorem size_from_args_other_axis (self : AxisAtom.t) :
  axis self <> None -> axis self <> Some 0%Z ->
  size_from_args self = (fst (arg0_size self), 1%nat).
Proof.
  unfold size_from_args. intros Hnone H0. destruct (axis self) as [a|]; [|done].
  destruct (Z.eqb_spec a 0) as [->|]; done.
Qed.

Lemma size_from_args_axis2 :
  validate_arguments (AxisAtom.mk (Some 2%Z) (3, 4)%nat grad_id) = Raised ValueError /\
  size_from_args (AxisAtom.mk (Some 2%Z) (3, 4)%nat grad_id) = (3, 1)%nat.
Proof.
  split; [reflexivity|].
  apply (size_from_args_other_axis (AxisAtom.mk (Some 2%Z) (3, 4)%nat grad_id));
    discriminate.
Defined.

(** ** Gradient assembly along an axis *)

(** What the [axis == 0] loop does where its rows stay inside the matrix.
    Operand of size [(m, n)]: when [n <= m] and every column's primitive
    returns a column of [m] entries, the assembly returns a matrix.
    Whenever it returns a matrix, the matrix has the shape [(m*n, n)] and,
    for every slice [i] with derivative [d], holds the [m] entries of [d]
    in column [i] at the rows [i*n, i*n+1, ..., i*n+m-1], and zero at every
    other row of that column. *)
Theorem axis0_gradient_placement (self : AxisAtom.t) (values : list ndarray)
    (v : ndarray) (m n : nat) :
  axis self = Some 0%Z ->
  arg0_size self = (m, n) ->
  nth_error values 0 = Some v ->
  shape0 v = m -> shape1 v = n ->
  ((n <= m)%nat ->
   (forall i, (i < n)%nat ->
      exists d, _column_grad self (col_entries v i) = Some d /\
                shape0 d = m /\ shape1 d = 1%nat) ->
   exists D, _axis_grad self values = Returned [Some D]) /\
  (forall D, _axis_grad self values = Returned [Some D] ->
     shape D = (m * n, n)%nat /\
     forall i d, (i < n)%nat -> _column_grad self (col_entries v i) = Some d ->
       shape0 d = m /\
       (forall j, (j < m)%nat -> get D (i * n + j) i = item d j 0) /\
       (forall r, (r < i * n)%nat \/ (i * n + m <= r)%nat -> get D r i = 0%Z)).
Proof.
  intros Hax Hsize Hv Hm Hn. split.
  - intros Hle Hprim.
    destruct (stitch_slices (_column_grad self) (col_entries v)
                (row_axis0 m n) (col_axis m) (fun i j => (i * n + j)%nat)
                m (m * n) n) as (D & HD & _).
    + intros i _. apply row_axis0_cast.
    + intros i. apply col_axis_cast.
    + intros i j Hi Hj. nia.
    + intros i j j' _ _ _ H. lia.
    + intros i Hi. destruct (Hprim i Hi) as (d & Hd & Hk & H1).
      exists d. repeat split; [done | done | lia].
    + exists D. rewrite (axis_grad_axis0 self values v m n Hsize Hv Hax Hn).
      rewrite HD. reflexivity.
  - intros D HD.
    apply (axis_grad_axis0_returned self values v m n Hsize Hv D Hax Hn) in HD.
    apply (stitched_slices (_column_grad self) (col_entries v)
             (row_axis0 m n) (col_axis m) (fun i j => (i * n + j)%nat)
             m (m * n) n) in HD as (Hsh & Hhit & Hmiss).
    + split; [exact Hsh|]. intros i d Hi Hd.
      destruct (Hhit i Hi) as (d' & Hd' & Hk & _ & Hg).
      assert (d' = d) as -> by congruence.
      split; [exact Hk|]. split; [exact Hg|].
      intros r Hr. apply Hmiss. right. intros j Hj. lia.
    + intros i _. apply row_axis0_cast.
    + intros i. apply col_axis_cast.
    + intros i j j' _ _ _ H. lia.
Qed.

Lemma axis0_gradient_placement_tall :
  exists D,
    _axis_grad (AxisAtom.mk (Some 0%Z) (3, 2)%nat grad_id)
               [array_of_rows [[1; 2]; [3; 4]; [5; 6]]%Z] = Returned [Some D] /\
    shape D = (6, 2)%nat /\
    forall i d, (i < 2)%nat ->
      grad_id (col_entries (array_of_rows [[1; 2]; [3; 4]; [5; 6]]%Z) i) = Some d ->
      shape0 d = 3%nat /\
      (forall j, (j < 3)%nat -> get D (i * 2 + j) i = item d j 0) /\
      (forall r, (r < i * 2)%nat \/ (i * 2 + 3 <= r)%nat -> get D r i = 0%Z).
Proof.
  destruct (axis0_gradient_placement
              (AxisAtom.mk (Some 0%Z) (3, 2)%nat grad_id)
              [array_of_rows [[1; 2]; [3; 4]; [5; 6]]%Z]
              (array_of_rows [[1; 2]; [3; 4]; [5; 6]]%Z) 3 2
              eq_refl eq_refl eq_refl eq_refl eq_refl) as [Hruns Hplaces].
  destruct Hruns as [D HD].
  - lia.
  - intros i _. eexists. split; [reflexivity|]. split; reflexivity.
  - exists D. split; [exact HD|]. exact (Hplaces D HD).
Defined.

(** C2 (code defect).  On an operand with more columns than rows the
    [axis == 0] loop places nothing: for the size [(1, 2)], with a
    primitive that returns a column of one entry on each of the two slices,
    the second slice is sent to row [1*2 = 2] of a matrix of [1*2 = 2]
    rows, the sparse constructor refuses it and the assembly raises
    [ValueError].  The offset [i*n] stands where the flattening of the
    operand has [i*m]. *)
Lemma axis0_gradient_row_out_of_range :
  (forall i, (i < 2)%nat ->
     exists d, grad_id (col_entries (array_of_rows [[1; 2]]%Z) i) = Some d /\
               shape0 d = 1%nat /\ shape1 d = 1%nat) /\
  map astype_int (row_axis0 1 2 1) = [2%Z] /\
  _axis_grad (AxisAtom.mk (Some 0%Z) (1, 2)%nat grad_id)
             [array_of_rows [[1; 2]]%Z] = Raised ValueError /\
  ~ exists D, _axis_grad (AxisAtom.mk (Some 0%Z) (1, 2)%nat grad_id)
                         [array_of_rows [[1; 2]]%Z] = Returned [Some D].
Proof.
  split; [|split; [|split]].
  - intros i _. eexists. split; [reflexivity|]. split; reflexivity.
  - reflexivity.
  - vm_compute. reflexivity.
  - intros [D H]. vm_compute in H. discriminate H.
Qed.

(** C3.  Operand of size [(m, n)], [axis == 1].  The slices are the
    columns of the transposed value, that is the rows of the operand.  When
    every row's primitive returns a column of [n] entries, the assembly
    returns a matrix.  Whenever it returns a matrix, the matrix has the
    shape [(m*n, m)] and, for every slice [i] with derivative [d], holds the
    [n] entries of [d] in column [i] at the rows [i, i+m, ..., i+(n-1)*m],
    and zero at every other row of that column. *)
Theorem axis1_gradient_placement (self : AxisAtom.t) (values : list ndarray)
    (v : ndarray) (m n : nat) :
  axis self = Some 1%Z ->
  arg0_size self = (m, n) ->
  nth_error values 0 = Some v ->
  shape0 v = m -> shape1 v = n ->
  (forall i, col_entries (transpose v) i = row_entries v i) /\
  ((forall i, (i < m)%nat ->
      exists d, _column_grad self (col_entries (transpose v) i) = Some d /\
                shape0 d = n /\ shape1 d = 1%nat) ->
   exists D, _axis_grad self values = Returned [Some D]) /\
  (forall D, _axis_grad self values = Returned [Some D] ->
     shape D = (m * n, m)%nat /\
     forall i d, (i < m)%nat ->
       _column_grad self (col_entries (transpose v) i) = Some d ->
       shape0 d = n /\
       (forall j, (j < n)%nat -> get D (i + j * m) i = item d j 0) /\
       (forall r, (forall j, (j < n)%nat -> r <> (i + j * m)%nat) ->
                  get D r i = 0%Z)).
Proof.
  intros Hax Hsize Hv Hm Hn. split; [reflexivity|]. split.
  - intros Hprim.
    destruct (stitch_slices (_column_grad self) (col_entries (transpose v))
                (row_axis1 m n) (col_axis n) (fun i j => (i + j * m)%nat)
                n (m * n) m) as (D & HD & _).
    + intros i _. apply row_axis1_cast.
    + intros i. apply col_axis_cast.
    + intros i j Hi Hj. nia.
    + intros i j j' Hi _ _ H. nia.
    + intros i Hi. destruct (Hprim i Hi) as (d & Hd & Hk & H1).
      exists d. repeat split; [done | done | lia].
    + exists D.
      rewrite (axis_grad_axis1 self values v m n Hsize Hv 1%Z Hax) by done.
      rewrite HD. reflexivity.
  - intros D HD.
    apply (axis_grad_axis1_returned self values v m n Hsize Hv 1%Z D Hax) in HD;
      [|done|done].
    apply (stitched_slices (_column_grad self) (col_entries (transpose v))
             (row_axis1 m n) (col_axis n) (fun i j => (i + j * m)%nat)
             n (m * n) m) in HD as (Hsh & Hhit & Hmiss).
    + split; [exact Hsh|]. intros i d Hi Hd.
      destruct (Hhit i Hi) as (d' & Hd' & Hk & _ & Hg).
      assert (d' = d) as -> by congruence.
      split; [exact Hk|]. split; [exact Hg|].
      intros r Hr. apply Hmiss. right. intros j Hj E. by apply (Hr j Hj).
    + intros i _. apply row_axis1_cast.
    + intros i. apply col_axis_cast.
    + intros i j j' Hi _ _ H. nia.
Qed.

Lemma axis1_gradient_placement_wide :
  exists D,
    _axis_grad (AxisAtom.mk (Some 1%Z) (2, 3)%nat grad_id)
               [array_of_rows [[1; 2; 3]; [4; 5; 6]]%Z] = Returned [Some D] /\
    shape D = (6, 2)%nat /\
    forall i d, (i < 2)%nat ->
      grad_id (col_entries (transpose (array_of_rows [[1; 2; 3]; [4; 5; 6]]%Z)) i)
        = Some d ->
      shape0 d = 3%nat /\
      (forall j, (j < 3)%nat -> get D (i + j * 2) i = item d j 0) /\
      (forall r, (forall j, (j < 3)%nat -> r <> (i + j * 2)%nat) ->
                 get D r i = 0%Z).
Proof.
  destruct (axis1_gradient_placement
              (AxisAtom.mk (Some 1%Z) (2, 3)%nat grad_id)
              [array_of_rows [[1; 2; 3]; [4; 5; 6]]%Z]
              (array_of_rows [[1; 2; 3]; [4; 5; 6]]%Z) 2 3
              eq_refl eq_refl eq_refl eq_refl eq_refl)
    as (_ & Hruns & Hplaces).
  destruct Hruns as [D HD].
  - intros i _. eexists. split; [reflexivity|]. split; reflexivity.
  - exists D. split; [exact HD|]. exact (Hplaces D HD).
Defined.

(** ** The whole operand at once *)

Section Ravel.

Lemma length_ravel (a : ndarray) : length (ravel a) = size a.
Proof.
  unfold ravel, size.
  rewrite flat_map_constant_length with (c := shape1 a).
  - by rewrite length_seq.
  - intros r _. apply length_row_entries.
Qed.

Lemma nth_flat_map_rows (g : nat -> list Z) (len a k r c : nat) :
  (forall x, length (g x) = len) ->
  (r < k)%nat -> (c < len)%nat ->
  nth (r * len + c) (flat_map g (seq a k)) 0%Z = nth c (g (a + r)%nat) 0%Z.
Proof.
  intros Hlen. revert a r. induction k as [|k IH]; intros a r Hr Hc; [lia|].
  cbn [seq flat_map]. destruct r as [|r].
  - rewrite app_nth1 by (rewrite Hlen; lia). by rewrite Nat.add_0_r.
  - rewrite app_nth2 by (rewrite Hlen; lia). rewrite Hlen.
    replace (S r * len + c - len)%nat with (r * len + c)%nat by lia.
    rewrite IH by lia. by replace (S a + r)%nat with (a + S r)%nat by lia.
Qed.

(** Row-major order: entry [(r, c)] is at position [r * shape1 + c]. *)
Lemma nth_ravel (a : ndarray) (r c : nat) :
  (r < shape0 a)%nat -> (c < shape1 a)%nat ->
  nth (r * shape1 a + c) (ravel a) 0%Z = item a r c.
Proof.
  intros Hr Hc. unfold ravel.
  rewrite nth_flat_map_rows by (done || apply length_row_entries).
  unfold row_entries. by rewrite nth_map_seq.
Qed.

End Ravel.

(** C6.  Operand of size [(m, n)], axis [None]: the primitive is called
    once, on the [m*n] entries of the transposed value read row by row
    (entry [(r, c)] of the operand at position [c*m + r]).  When it returns
    a gradient, the assembly returns that gradient, converted to the sparse
    format with its shape and every entry kept; when it returns [None], the
    assembly returns [[None]]. *)
Theorem axis_none_gradient (self : AxisAtom.t) (values : list ndarray)
    (v : ndarray) (m n : nat) :
  axis self = None ->
  arg0_size self = (m, n) ->
  nth_error values 0 = Some v ->
  shape0 v = m -> shape1 v = n ->
  let x := ravel (transpose v) in
  length x = (m * n)%nat /\
  (forall r c, (r < m)%nat -> (c < n)%nat -> nth (c * m + r) x 0%Z = item v r c) /\
  match _column_grad self x with
  | Some d =>
      _axis_grad self values = Returned [Some (csc_of_dense d)] /\
      shape (csc_of_dense d) = (shape0 d, shape1 d) /\
      (forall r c, (r < shape0 d)%nat -> (c < shape1 d)%nat ->
                   get (csc_of_dense d) r c = item d r c)
  | None => _axis_grad self values = Returned [None]
  end.
Proof.
  intros Hax Hsize Hv Hm Hn x.
  assert (Hlen : length x = (m * n)%nat).
  { subst x. rewrite length_ravel. unfold size. cbn [transpose shape0 shape1]. lia. }
  split; [exact Hlen|]. split.
  - intros r c Hr Hc. subst x.
    rewrite <- Hm. change (shape0 v) with (shape1 (transpose v)).
    rewrite nth_ravel; [reflexivity | cbn; lia | cbn; lia].
  - assert (Hgrad : _axis_grad self values =
              Returned [match _column_grad self x with
                        | Some D' => Some (csc_of_dense D')
                        | None => None
                        end]).
    { unfold _axis_grad. rewrite Hax, Hsize. unfold getitem. rewrite Hv.
      cbn [Py.bind fst snd]. unfold reshape_column.
      replace (size (transpose v)) with (m * n)%nat
        by (unfold size; cbn [transpose shape0 shape1]; lia).
      rewrite Nat.eqb_refl. reflexivity. }
    rewrite Hgrad. destruct (_column_grad self x) as [d|]; [|reflexivity].
    split; [reflexivity|]. split; [reflexivity|].
    intros r c Hr Hc. rewrite get_csc_of_dense.
    apply Nat.ltb_lt in Hr, Hc. by rewrite Hr, Hc.
Qed.

(** ** What the loops can and cannot return *)

Section LoopResults.
Variables (self : AxisAtom.t) (values : list ndarray).

Local Abbreviation m := (fst (arg0_size self)).
Local Abbreviation n := (snd (arg0_size self)).

(** Whatever the primitive does, an assembly along an axis does not
    return [[None]]: the [return [None]] of the loops is unreachable. *)
Lemma axis_grad_never_none (a : Z) :
  axis self = Some a -> _axis_grad self values <> Returned [None].
Proof.
  intros Hax H. unfold _axis_grad in H. rewrite Hax in H.
  destruct (Z.eqb a 0).
  - match type of H with
    | context [for_in ?l ?b ?s] => destruct (for_in l b s) as [[D|r]|e] eqn:E
    end; cbn [Py.bind] in H; try discriminate H.
    apply for_in_return in E as (i & s & Hb). enter_body Hb.
    by apply slice_step_no_return in Hb.
  - destruct (getitem values 0) as [v0|]; cbn [Py.bind] in H; [|discriminate H].
    match type of H with
    | context [for_in ?l ?b ?s] => destruct (for_in l b s) as [[D|r]|e] eqn:E
    end; cbn [Py.bind] in H; try discriminate H.
    apply for_in_return in E as (i & s & Hb). enter_body Hb.
    by apply slice_step_no_return in Hb.
Qed.

(** A matrix returned by an assembly along an axis has the shape the
    accumulator was created with. *)
Lemma axis_grad_shape_axis (a : Z) (D : csc_matrix) :
  axis self = Some a ->
  _axis_grad self values = Returned [Some D] ->
  shape D = ((m * n)%nat, if Z.eqb a 0 then n else m).
Proof.
  intros Hax H. unfold _axis_grad in H. rewrite Hax in H.
  destruct (Z.eqb a 0).
  - match type of H with
    | context [for_in ?l ?b ?s] =>
        pose proof (for_in_continue b (fun D => shape D = (m * n, n)%nat) l s) as Hinv;
        destruct (for_in l b s) as [[D'|r]|e] eqn:E
    end; cbn [Py.bind] in H; try discriminate H.
    + injection H as ->. apply Hinv; [reflexivity | | reflexivity].
      intros i s s' Hs Hb. enter_body Hb.
      apply slice_step_shape in Hb. congruence.
    + apply for_in_return in E as (i & s & Hb). enter_body Hb.
      by apply slice_step_no_return in Hb.
  - destruct (getitem values 0) as [v0|]; cbn [Py.bind] in H; [|discriminate H].
    match type of H with
    | context [for_in ?l ?b ?s] =>
        pose proof (for_in_continue b (fun D => shape D = (m * n, m)%nat) l s) as Hinv;
        destruct (for_in l b s) as [[D'|r]|e] eqn:E
    end; cbn [Py.bind] in H; try discriminate H.
    + injection H as ->. apply Hinv; [reflexivity | | reflexivity].
      intros i s s' Hs Hb. enter_body Hb.
      apply slice_step_shape in Hb. congruence.
    + apply for_in_return in E as (i & s & Hb). enter_body Hb.
      by apply slice_step_no_return in Hb.
Qed.

End LoopResults.

(** ** Shape of the gradient *)

(** C7.  With a primitive that keeps the contract, a matrix returned by the
    assembly has [m*n] rows and as many columns as the output of
    [size_from_args] has entries. *)
Theorem gradient_shape (self : AxisAtom.t) (values : list ndarray)
    (D : csc_matrix) :
  column_contract (_column_grad self) ->
  _axis_grad self values = Returned [Some D] ->
  shape D = ((fst (arg0_size self) * snd (arg0_size self))%nat,
             (fst (size_from_args self) * snd (size_from_args self))%nat).
Proof.
  intros Hprim H. destruct (axis self) as [a|] eqn:Hax.
  - rewrite (axis_grad_shape_axis self values a D Hax H).
    unfold size_from_args. rewrite Hax.
    destruct (Z.eqb a 0); cbn [fst snd]; f_equal; lia.
  - unfold _axis_grad in H. rewrite Hax in H.
    destruct (getitem values 0) as [v0|]; cbn [Py.bind] in H; [|discriminate H].
    unfold reshape_column in H.
    destruct (Nat.eqb_spec (size (transpose v0))
                (fst (arg0_size self) * snd (arg0_size self))) as [Hsz|];
      cbn [Py.bind] in H; [|discriminate H].
    destruct (_column_grad self (ravel (transpose v0))) as [d|] eqn:Hd;
      [|discriminate H].
    injection H as <-. apply Hprim in Hd as [H0 H1].
    unfold size_from_args. rewrite Hax. cbn [csc_of_dense shape fst snd].
    rewrite H0, H1, length_ravel, Hsz. reflexivity.
Qed.

Lemma grad_id_contract : column_contract grad_id.
Proof.
  intros x d [= <-]. split; reflexivity.
Defined.

Lemma gradient_shape_examples :
  shape (csc_of_dense (column_of [1; 3; 2; 4]%Z)) = (4, 1)%nat /\
  shape (mk_csc (4, 2)%nat
           (list_to_map [((0, 0), 1%Z); ((1, 0), 3%Z); ((2, 1), 2%Z); ((3, 1), 4%Z)]%nat))
    = (4, 2)%nat.
Proof.
  split.
  - apply (gradient_shape (AxisAtom.mk None (2, 2)%nat grad_id)
             [array_of_rows [[1; 2]; [3; 4]]%Z]);
      [apply grad_id_contract | reflexivity].
  - apply (gradient_shape (AxisAtom.mk (Some 0%Z) (2, 2)%nat grad_id)
             [array_of_rows [[1; 2]; [3; 4]]%Z]);
      [apply grad_id_contract | vm_compute; reflexivity].
Defined.

Lemma axis_none_gradient_examples :
  (length (ravel (transpose (array_of_rows [[1; 2]; [3; 4]]%Z))) = 4%nat /\
   (forall r c, (r < 2)%nat -> (c < 2)%nat ->
      nth (c * 2 + r) (ravel (transpose (array_of_rows [[1; 2]; [3; 4]]%Z))) 0%Z
      = item (array_of_rows [[1; 2]; [3; 4]]%Z) r c) /\
   _axis_grad (AxisAtom.mk None (2, 2)%nat grad_id)
              [array_of_rows [[1; 2]; [3; 4]]%Z]
     = Returned [Some (csc_of_dense (column_of [1; 3; 2; 4]%Z))] /\
   shape (csc_of_dense (column_of [1; 3; 2; 4]%Z)) = (4, 1)%nat /\
   (forall r c, (r < 4)%nat -> (c < 1)%nat ->
      get (csc_of_dense (column_of [1; 3; 2; 4]%Z)) r c
      = item (column_of [1; 3; 2; 4]%Z) r c)) /\
  _axis_grad (AxisAtom.mk None (2, 2)%nat grad_none)
             [array_of_rows [[1; 2]; [3; 4]]%Z] = Returned [None].
Proof.
  split.
  - exact (axis_none_gradient (AxisAtom.mk None (2, 2)%nat grad_id)
             [array_of_rows [[1; 2]; [3; 4]]%Z]
             (array_of_rows [[1; 2]; [3; 4]]%Z) 2 2
             eq_refl eq_refl eq_refl eq_refl eq_refl).
  - apply (axis_none_gradient (AxisAtom.mk None (2, 2)%nat grad_none)
             [array_of_rows [[1; 2]; [3; 4]]%Z]
             (array_of_rows [[1; 2]; [3; 4]]%Z) 2 2);
      reflexivity.
Defined.

(** ** Where the code leaves its documented behaviour *)

(** C1 (code defect).  A slice whose primitive returns [None] does not make
    the assembly return [[None]]: the loops take [.T] of the primitive's
    result before they test it, and [None.T] raises [AttributeError].
    Here the primitive is differentiable on the first slice and not on the
    second. *)
Theorem axis_grad_none_slice_raises :
  (grad_unless_negative (col_entries (array_of_rows [[1; -1]; [2; 3]]%Z) 0)
     <> None /\
   grad_unless_negative (col_entries (array_of_rows [[1; -1]; [2; 3]]%Z) 1)
     = None /\
   _axis_grad (AxisAtom.mk (Some 0%Z) (2, 2)%nat grad_unless_negative)
              [array_of_rows [[1; -1]; [2; 3]]%Z] = Raised AttributeError) /\
  (grad_unless_negative
     (col_entries (transpose (array_of_rows [[1; 2]; [-3; 4]]%Z)) 0) <> None /\
   grad_unless_negative
     (col_entries (transpose (array_of_rows [[1; 2]; [-3; 4]]%Z)) 1) = None /\
   _axis_grad (AxisAtom.mk (Some 1%Z) (2, 2)%nat grad_unless_negative)
              [array_of_rows [[1; 2]; [-3; 4]]%Z] = Raised AttributeError).
Proof.
  repeat split; try discriminate; vm_compute; reflexivity.
Qed.

(** C8 (code defect).  With [axis == 0] the slices do not own disjoint row
    ranges: for the size [(3, 2)] slice [0] goes to rows [0, 1, 2] and slice
    [1] to rows [2, 3, 4].  Row [2] of the result holds an entry of each of
    the two slices and row [5] holds none, where the flattening of the
    operand has column [1] at rows [3, 4, 5]. *)
Theorem axis0_row_ranges_overlap :
  ravel (transpose (array_of_rows [[1; 2]; [3; 4]; [5; 6]]%Z))
    = [1; 3; 5; 2; 4; 6]%Z /\
  map astype_int (row_axis0 3 2 0) = [0; 1; 2]%Z /\
  map astype_int (row_axis0 3 2 1) = [2; 3; 4]%Z /\
  _axis_grad (AxisAtom.mk (Some 0%Z) (3, 2)%nat grad_id)
             [array_of_rows [[1; 2]; [3; 4]; [5; 6]]%Z]
  = Returned [Some (mk_csc (6, 2)%nat
      (list_to_map [((0, 0), 1%Z); ((1, 0), 3%Z); ((2, 0), 5%Z);
                    ((2, 1), 2%Z); ((3, 1), 4%Z); ((4, 1), 6%Z)]%nat))].
Proof.
  split; [reflexivity|]. split; [reflexivity|]. split; [reflexivity|].
  vm_compute. reflexivity.
Qed.

(** * Further properties of the methods *)

(** ** What an assembly returns *)

(** X1.  Whatever the primitive and the values, a list returned by
    [_axis_grad] has exactly one element, and along an axis that element
    is a matrix with the shape of the accumulator: the loops never return
    [[None]]. *)
Theorem axis_grad_returns_one (self : AxisAtom.t) (values : list ndarray)
    (l : list (option csc_matrix)) :
  _axis_grad self values = Returned l ->
  length l = 1%nat /\
  forall a, axis self = Some a ->
    exists D, l = [Some D] /\
      shape D = ((fst (arg0_size self) * snd (arg0_size self))%nat,
                 if Z.eqb a 0 then snd (arg0_size self) else fst (arg0_size self)).
Proof.
  intros H. destruct (axis self) as [a|] eqn:Hax.
  - assert (HD : exists D, l = [Some D]).
    { unfold _axis_grad in H. rewrite Hax in H. destruct (Z.eqb a 0).
      - match type of H with
        | context [for_in ?l ?b ?s] => destruct (for_in l b s) as [[D|r]|e] eqn:E
        end; cbn [Py.bind] in H; try discriminate H.
        + injection H as <-. by exists D.
        + apply for_in_return in E as (i & s & Hb). enter_body Hb.
          by apply slice_step_no_return in Hb.
      - destruct (getitem values 0) as [v0|]; cbn [Py.bind] in H; [|discriminate H].
        match type of H with
        | context [for_in ?l ?b ?s] => destruct (for_in l b s) as [[D|r]|e] eqn:E
        end; cbn [Py.bind] in H; try discriminate H.
        + injection H as <-. by exists D.
        + apply for_in_return in E as (i & s & Hb). enter_body Hb.
          by apply slice_step_no_return in Hb. }
    destruct HD as [D ->]. split; [reflexivity|].
    intros a' [= <-]. exists D. split; [reflexivity|].
    by apply (axis_grad_shape_axis self values a D Hax).
  - split; [|intros a' Ha'; discriminate Ha'].
    unfold _axis_grad in H. rewrite Hax in H.
    destruct (getitem values 0) as [v0|]; cbn [Py.bind] in H; [|discriminate H].
    destruct (reshape_column _ _); cbn [Py.bind] in H; [|discriminate H].
    by injection H as <-.
Qed.

Lemma axis_grad_returns_one_example :
  length [Some (mk_csc (4, 2)%nat
           (list_to_map [((0, 0), 1%Z); ((1, 0), 3%Z); ((2, 1), 2%Z); ((3, 1), 4%Z)]%nat))]
    = 1%nat /\
  forall a, Some 0%Z = Some a ->
    exists D,
      [Some (mk_csc (4, 2)%nat
         (list_to_map [((0, 0), 1%Z); ((1, 0), 3%Z); ((2, 1), 2%Z); ((3, 1), 4%Z)]%nat))]
        = [Some D] /\
      shape D = ((2 * 2)%nat, if Z.eqb a 0 then 2%nat else 2%nat).
Proof.
  apply (axis_grad_returns_one
           (AxisAtom.mk (Some 0%Z) (2, 2)%nat grad_id)
           [array_of_rows [[1; 2]; [3; 4]]%Z]).
  vm_compute. reflexivity.
Defined.

(** ** Instances that validation rejects, shapes *)

(** X2.  An instance that [validate_arguments] rejects is treated by the
    other methods as one with [axis == 1]: [size_from_args] and
    [_axis_grad] take their last branch for every axis other than [None]
    and [0]. *)
Theorem rejected_axis_acts_as_axis1 (self : AxisAtom.t) (values : list ndarray) :
  validate_arguments self = Raised ValueError ->
  size_from_args self
    = size_from_args (AxisAtom.mk (Some 1%Z) (arg0_size self) (_column_grad self)) /\
  _axis_grad self values
    = _axis_grad (AxisAtom.mk (Some 1%Z) (arg0_size self) (_column_grad self)) values.
Proof.
  unfold validate_arguments, size_from_args, _axis_grad.
  destruct (axis self) as [a|]; [|discriminate].
  cbn [existsb AxisAtom.axis AxisAtom.arg0_size AxisAtom._column_grad].
  destruct (Z.eqb_spec a 0) as [->|Ha]; [discriminate|].
  intros _. split; reflexivity.
Qed.

Lemma rejected_axis_acts_as_axis1_example :
  size_from_args (AxisAtom.mk (Some 7%Z) (2, 3)%nat grad_id)
    = size_from_args (AxisAtom.mk (Some 1%Z) (2, 3)%nat grad_id) /\
  _axis_grad (AxisAtom.mk (Some 7%Z) (2, 3)%nat grad_id)
             [array_of_rows [[1; 2; 3]; [4; 5; 6]]%Z]
    = _axis_grad (AxisAtom.mk (Some 1%Z) (2, 3)%nat grad_id)
                 [array_of_rows [[1; 2; 3]; [4; 5; 6]]%Z].
Proof.
  apply (rejected_axis_acts_as_axis1 (AxisAtom.mk (Some 7%Z) (2, 3)%nat grad_id)).
  reflexivity.
Defined.

(** X3.  For an operand with at least one row and one column the inferred
    size is that of a vector with at least one entry and no more entries
    than the operand, whatever the axis. *)
Theorem size_from_args_vector (self : AxisAtom.t) :
  (1 <= fst (arg0_size self))%nat -> (1 <= snd (arg0_size self))%nat ->
  (fst (size_from_args self) = 1%nat \/ snd (size_from_args self) = 1%nat) /\
  (1 <= fst (size_from_args self))%nat /\
  (1 <= snd (size_from_args self))%nat /\
  (fst (size_from_args self) * snd (size_from_args self)
     <= fst (arg0_size self) * snd (arg0_size self))%nat.
Proof.
  intros Hm Hn. unfold size_from_args.
  destruct (axis self) as [a|]; [destruct (Z.eqb a 0)|]; cbn [fst snd];
    repeat split; try lia; auto; nia.
Qed.

Lemma size_from_args_vector_example :
  (fst (size_from_args (AxisAtom.mk (Some 0%Z) (2, 3)%nat grad_id)) = 1%nat \/
   snd (size_from_args (AxisAtom.mk (Some 0%Z) (2, 3)%nat grad_id)) = 1%nat) /\
  (1 <= fst (size_from_args (AxisAtom.mk (Some 0%Z) (2, 3)%nat grad_id)))%nat /\
  (1 <= snd (size_from_args (AxisAtom.mk (Some 0%Z) (2, 3)%nat grad_id)))%nat /\
  (fst (size_from_args (AxisAtom.mk (Some 0%Z) (2, 3)%nat grad_id))
   * snd (size_from_args (AxisAtom.mk (Some 0%Z) (2, 3)%nat grad_id))
     <= 2 * 3)%nat.
Proof.
  apply (size_from_args_vector (AxisAtom.mk (Some 0%Z) (2, 3)%nat grad_id));
    cbn; lia.
Defined.

(** ** Values that do not fit *)

(** X4.  Without a value for the operand the assembly raises [IndexError],
    except along [axis == 0] for an operand without columns, where the
    loop does not run. *)
Theorem axis_grad_no_values (self : AxisAtom.t) :
  _axis_grad self [] = Raised IndexError <->
  (axis self = Some 0%Z -> (1 <= snd (arg0_size self))%nat).
Proof.
  unfold _axis_grad. destruct (axis self) as [a|]; [|by split].
  destruct (Z.eqb_spec a 0) as [->|Ha]; [|split; [congruence | reflexivity]].
  destruct (snd (arg0_size self)) as [|n'].
  - cbn. split; [discriminate|]. intros H. specialize (H eq_refl). lia.
  - cbn [range seq for_in getitem nth_error Py.bind]. split; [intros; lia | reflexivity].
Qed.

(** X5.  With the axis [None] the only check on the value is its number of
    entries: the assembly raises [ValueError] exactly when [values[0]]
    does not hold [m*n] entries, and raises nothing else. *)
Theorem axis_none_entry_count (self : AxisAtom.t) (values : list ndarray)
    (v : ndarray) :
  axis self = None ->
  nth_error values 0 = Some v ->
  (_axis_grad self values = Raised ValueError <->
     size v <> (fst (arg0_size self) * snd (arg0_size self))%nat) /\
  (forall e, _axis_grad self values = Raised e -> e = ValueError).
Proof.
  intros Hax Hv. unfold _axis_grad, getitem. rewrite Hax, Hv. cbn [Py.bind].
  unfold reshape_column.
  replace (size (transpose v)) with (size v)
    by (unfold size; cbn [transpose shape0 shape1]; lia).
  destruct (Nat.eqb_spec (size v) (fst (arg0_size self) * snd (arg0_size self)));
    cbn [Py.bind]; split; try split; try done; congruence.
Qed.

Lemma axis_none_entry_count_example :
  (_axis_grad (AxisAtom.mk None (2, 2)%nat grad_id)
              [array_of_rows [[1; 2; 3]]%Z] = Raised ValueError <->
     size (array_of_rows [[1; 2; 3]]%Z) <> (2 * 2)%nat) /\
  (forall e, _axis_grad (AxisAtom.mk None (2, 2)%nat grad_id)
                        [array_of_rows [[1; 2; 3]]%Z] = Raised e ->
             e = ValueError).
Proof.
  apply (axis_none_entry_count (AxisAtom.mk None (2, 2)%nat grad_id)
           [array_of_rows [[1; 2; 3]]%Z] (array_of_rows [[1; 2; 3]]%Z));
    reflexivity.
Defined.

(** ** Loops that fail *)

Section LoopFailures.
Context {St R : Type}.
Implicit Types body : nat -> St -> result (ctl St R).

(** A loop whose steps keep an invariant or raise [e], one of them raising
    [e] whenever the invariant holds, raises [e]. *)
Lemma for_in_raises_inv body (P : St -> Prop) (e : exn) (items : list nat)
    (s0 : St) :
  P s0 ->
  (forall i s, In i items -> P s ->
     (exists s', body i s = Returned (Continue s') /\ P s') \/
     body i s = Raised e) ->
  (exists i0, In i0 items /\ forall s, P s -> body i0 s = Raised e) ->
  for_in items body s0 = Raised e.
Proof.
  revert s0. induction items as [|i items IH];
    intros s0 H0 Hstep (i0 & Hi0 & Hbad).
  - destruct Hi0.
  - cbn [for_in].
    destruct (Hstep i s0 (in_eq _ _) H0) as [(s' & Hs & Hs')|Hs];
      rewrite Hs; [|done].
    destruct Hi0 as [<-|Hi0]; [by rewrite (Hbad s0 H0) in Hs|].
    apply IH; [exact Hs' | | by exists i0].
    intros j s Hj. apply Hstep. by apply in_cons.
Qed.

End LoopFailures.

Section StitchFailures.
Variables (prim : list Z -> option ndarray) (sl : nat -> list Z).
Variables (rowq colq : nat -> list Q) (f : nat -> nat -> nat).
Variables (k M N : nat).

Hypothesis Hrow : forall i, (i < N)%nat ->
  map astype_int (rowq i) = map (fun j => Z.of_nat (f i j)) (seq 0 k).
Hypothesis Hcol : forall i,
  map astype_int (colq i) = repeat (Z.of_nat i) k.
Hypothesis Hin : forall i j, (i < N)%nat -> (j < k)%nat -> (f i j < M)%nat.
Hypothesis Hinj : forall i j j', (i < N)%nat -> (j < k)%nat -> (j' < k)%nat ->
  f i j = f i j' -> j = j'.

(** Slices that are differentiable or not, one of them not: the loop
    raises [AttributeError]. *)
Lemma stitch_none_raises :
  (forall i, (i < N)%nat ->
     prim (sl i) = None \/
     exists d, prim (sl i) = Some d /\ shape0 d = k /\ (1 <= shape1 d)%nat) ->
  (exists i0, (i0 < N)%nat /\ prim (sl i0) = None) ->
  for_in (range N)
    (fun i D => slice_step prim (sl i) (rowq i) (colq i) (M, N) D)
    (csc_empty (M, N))
  = Raised AttributeError.
Proof.
  intros Hprim (i0 & Hi0 & Hnone).
  apply (for_in_raises_inv _ (fun D => shape D = (M, N))).
  - reflexivity.
  - intros i D Hi Hsh. apply in_seq in Hi.
    assert (HiN : (i < N)%nat) by lia.
    destruct (Hprim i HiN) as [Hn|(d & Hd & Hk & H1)].
    + right. by apply slice_step_none.
    + left.
      destruct (slice_step_place prim (sl i) d (rowq i) (colq i) (f i) i k M N D
                  Hd Hk H1 Hsh (Hrow i HiN) (Hcol i) (fun j => Hin i j HiN)
                  (fun _ => HiN) (fun j j' => Hinj i j j' HiN))
        as (D' & HD' & Hsh' & _).
      by exists D'.
  - exists i0. split; [apply in_seq; lia|]. intros D _.
    by apply slice_step_none.
Qed.

End StitchFailures.

(** A column of the wrong length is refused by the sparse constructor. *)
Lemma slice_step_wrong_length (prim : list Z -> option ndarray)
    (value : list Z) (d : ndarray) (row col : list Q) (shp : nat * nat)
    (D : csc_matrix) :
  prim value = Some d -> (1 <= shape1 d)%nat ->
  shape0 d <> length row ->
  slice_step prim value row col shp D = Raised ValueError.
Proof.
  intros Hd H1 Hlen. unfold slice_step. rewrite Hd. cbn [attr_T Py.bind].
  rewrite first_row_transpose by exact H1. cbn [Py.bind].
  unfold csc_of_triples, col_entries.
  rewrite !length_map, length_seq.
  destruct (Nat.eqb_spec (shape0 d) (length row)); [done|reflexivity].
Qed.

(** X6.  Along the rows (any axis other than [None] and [0]): when every
    slice's primitive returns [None] or a column of [n] entries, and at
    least one returns [None], the assembly raises [AttributeError]. *)
Theorem axis1_none_slice_attribute_error (self : AxisAtom.t)
    (values : list ndarray) (v : ndarray) (m n : nat) (a : Z) :
  axis self = Some a -> a <> 0%Z ->
  arg0_size self = (m, n) ->
  nth_error values 0 = Some v ->
  shape0 v = m ->
  (forall i, (i < m)%nat ->
     _column_grad self (col_entries (transpose v) i) = None \/
     exists d, _column_grad self (col_entries (transpose v) i) = Some d /\
               shape0 d = n /\ shape1 d = 1%nat) ->
  (exists i0, (i0 < m)%nat /\
     _column_grad self (col_entries (transpose v) i0) = None) ->
  _axis_grad self values = Raised AttributeError.
Proof.
  intros Hax Ha Hsize Hv Hm Hprim Hnone.
  rewrite (axis_grad_axis1 self values v m n Hsize Hv a Hax Ha Hm).
  rewrite (stitch_none_raises (_column_grad self) (col_entries (transpose v))
             (row_axis1 m n) (col_axis n) (fun i j => (i + j * m)%nat) n (m * n) m);
    [reflexivity | | | | | | exact Hnone].
  - intros i _. apply row_axis1_cast.
  - intros i. apply col_axis_cast.
  - intros i j Hi Hj. nia.
  - intros i j j' Hi _ _ H. nia.
  - intros i Hi. destruct (Hprim i Hi) as [H|(d & Hd & Hk & H1)]; [by left|].
    right. exists d. repeat split; [done | done | lia].
Qed.

Lemma axis1_none_slice_attribute_error_example :
  _axis_grad (AxisAtom.mk (Some 1%Z) (2, 2)%nat grad_unless_negative)
             [array_of_rows [[1; 2]; [-3; 4]]%Z] = Raised AttributeError.
Proof.
  apply (axis1_none_slice_attribute_error
           (AxisAtom.mk (Some 1%Z) (2, 2)%nat grad_unless_negative)
           [array_of_rows [[1; 2]; [-3; 4]]%Z]
           (array_of_rows [[1; 2]; [-3; 4]]%Z) 2 2 1%Z);
    try reflexivity.
  - discriminate.
  - intros [|[|i]] Hi; [right | left | lia].
    + eexists. split; [reflexivity|]. split; reflexivity.
    + reflexivity.
  - exists 1%nat. split; [lia | reflexivity].
Defined.

(** X7.  Along the columns ([axis == 0]) of an operand with no more columns
    than rows: when every slice's primitive returns [None] or a column of
    [m] entries, and at least one returns [None], the assembly raises
    [AttributeError]. *)
Theorem axis0_none_slice_attribute_error (self : AxisAtom.t)
    (values : list ndarray) (v : ndarray) (m n : nat) :
  axis self = Some 0%Z ->
  arg0_size self = (m, n) ->
  nth_error values 0 = Some v ->
  shape1 v = n ->
  (n <= m)%nat ->
  (forall i, (i < n)%nat ->
     _column_grad self (col_entries v i) = None \/
     exists d, _column_grad self (col_entries v i) = Some d /\
               shape0 d = m /\ shape1 d = 1%nat) ->
  (exists i0, (i0 < n)%nat /\ _column_grad self (col_entries v i0) = None) ->
  _axis_grad self values = Raised AttributeError.
Proof.
  intros Hax Hsize Hv Hn Hle Hprim Hnone.
  rewrite (axis_grad_axis0 self values v m n Hsize Hv Hax Hn).
  rewrite (stitch_none_raises (_column_grad self) (col_entries v)
             (row_axis0 m n) (col_axis m) (fun i j => (i * n + j)%nat) m (m * n) n);
    [reflexivity | | | | | | exact Hnone].
  - intros i _. apply row_axis0_cast.
  - intros i. apply col_axis_cast.
  - intros i j Hi Hj. nia.
  - intros i j j' _ _ _ H. lia.
  - intros i Hi. destruct (Hprim i Hi) as [H|(d & Hd & Hk & H1)]; [by left|].
    right. exists d. repeat split; [done | done | lia].
Qed.

Lemma axis0_none_slice_attribute_error_example :
  _axis_grad (AxisAtom.mk (Some 0%Z) (2, 2)%nat grad_unless_negative)
             [array_of_rows [[1; -1]; [2; 3]]%Z] = Raised AttributeError.
Proof.
  apply (axis0_none_slice_attribute_error
           (AxisAtom.mk (Some 0%Z) (2, 2)%nat grad_unless_negative)
           [array_of_rows [[1; -1]; [2; 3]]%Z]
           (array_of_rows [[1; -1]; [2; 3]]%Z) 2 2);
    try reflexivity.
  - intros [|[|i]] Hi; [right | left | lia].
    + eexists. split; [reflexivity|]. split; reflexivity.
    + reflexivity.
  - exists 1%nat. split; [lia | reflexivity].
Defined.

(** X8.  Along the rows: when every slice's primitive returns an array and
    one of them is not [n] entries long, the assembly raises [ValueError]
    (the sparse constructor refuses data and indices of different
    lengths). *)
Theorem axis1_wrong_length_value_error (self : AxisAtom.t)
    (values : list ndarray) (v : ndarray) (m n : nat) (a : Z) :
  axis self = Some a -> a <> 0%Z ->
  arg0_size self = (m, n) ->
  nth_error values 0 = Some v ->
  shape0 v = m ->
  (forall i, (i < m)%nat ->
     exists d, _column_grad self (col_entries (transpose v) i) = Some d /\
               (1 <= shape1 d)%nat) ->
  (exists i0 d, (i0 < m)%nat /\
     _column_grad self (col_entries (transpose v) i0) = Some d /\
     shape0 d <> n) ->
  _axis_grad self values = Raised ValueError.
Proof.
  intros Hax Ha Hsize Hv Hm Hprim (i0 & d0 & Hi0 & Hd0 & Hlen).
  rewrite (axis_grad_axis1 self values v m n Hsize Hv a Hax Ha Hm).
  rewrite (for_in_raises _ ValueError); [reflexivity | |].
  - intros i D Hi. apply in_seq in Hi.
    destruct (Hprim i) as (d & Hd & H1); [lia|].
    by apply (slice_step_some _ _ d).
  - exists i0. split; [apply in_seq; lia|]. intros D.
    destruct (Hprim i0 Hi0) as (d & Hd & H1).
    assert (d = d0) as -> by congruence.
    apply (slice_step_wrong_length _ _ d0); [done | done |].
    rewrite <- (length_map astype_int), row_axis1_cast, length_map, length_seq.
    exact Hlen.
Qed.

Lemma axis1_wrong_length_value_error_example :
  _axis_grad (AxisAtom.mk (Some 1%Z) (2, 3)%nat grad_head)
             [array_of_rows [[1; 2; 3]; [4; 5; 6]]%Z] = Raised ValueError.
Proof.
  apply (axis1_wrong_length_value_error
           (AxisAtom.mk (Some 1%Z) (2, 3)%nat grad_head)
           [array_of_rows [[1; 2; 3]; [4; 5; 6]]%Z]
           (array_of_rows [[1; 2; 3]; [4; 5; 6]]%Z) 2 3 1%Z);
    try reflexivity.
  - discriminate.
  - intros i _. eexists. split; [reflexivity | cbn; lia].
  - exists 0%nat. eexists. split; [lia|]. split; [reflexivity | cbn; lia].
Defined.

(** X9.  Along the rows: a value with fewer rows than the operand's size
    says makes the assembly raise [IndexError] once the rows it has are
    consumed, provided their primitives return columns of [n] entries. *)
Theorem axis1_short_value_index_error (self : AxisAtom.t)
    (values : list ndarray) (v : ndarray) (m n : nat) (a : Z) :
  axis self = Some a -> a <> 0%Z ->
  arg0_size self = (m, n) ->
  nth_error values 0 = Some v ->
  (shape0 v < m)%nat ->
  (forall i, (i < shape0 v)%nat ->
     exists d, _column_grad self (col_entries (transpose v) i) = Some d /\
               shape0 d = n /\ shape1 d = 1%nat) ->
  _axis_grad self values = Raised IndexError.
Proof.
  intros Hax Ha Hsize Hv Hshort Hprim.
  unfold _axis_grad. rewrite Hax, Hsize. cbn [fst snd].
  destruct (Z.eqb_spec a 0) as [|_]; [done|].
  unfold getitem. rewrite Hv. cbn [Py.bind].
  match goal with
  | |- context [for_in ?l ?b ?s] =>
      rewrite (for_in_raises_inv b (fun D => shape D = (m * n, m)%nat) IndexError l s)
  end; [reflexivity | reflexivity | |].
  - intros i D Hi Hsh. apply in_seq in Hi. cbv beta.
    unfold get_column. cbn [transpose shape1].
    destruct (Nat.ltb_spec i (shape0 v)) as [Hlt|]; cbn [Py.bind]; [|by right].
    left. destruct (Hprim i Hlt) as (d & Hd & Hk & H1).
    destruct (slice_step_place (_column_grad self) (col_entries (transpose v) i)
                d (row_axis1 m n i) (col_axis n i) (fun j => (i + j * m)%nat)
                i n (m * n) m D Hd Hk) as (D' & HD' & Hsh' & _);
      try done.
    + lia.
    + apply row_axis1_cast.
    + apply col_axis_cast.
    + intros j Hj. nia.
    + intros _. lia.
    + intros j j' _ _ H. nia.
    + by exists D'.
  - exists (shape0 v). split; [apply in_seq; lia|]. intros D _. cbv beta.
    unfold get_column. cbn [transpose shape1].
    destruct (Nat.ltb_spec (shape0 v) (shape0 v)); [lia | reflexivity].
Qed.

Lemma axis1_short_value_index_error_example :
  _axis_grad (AxisAtom.mk (Some 1%Z) (3, 2)%nat grad_id)
             [array_of_rows [[1; 2]; [3; 4]]%Z] = Raised IndexError.
Proof.
  apply (axis1_short_value_index_error
           (AxisAtom.mk (Some 1%Z) (3, 2)%nat grad_id)
           [array_of_rows [[1; 2]; [3; 4]]%Z]
           (array_of_rows [[1; 2]; [3; 4]]%Z) 3 2 1%Z);
    try reflexivity.
  - discriminate.
  - cbn. lia.
  - intros i _. eexists. split; [reflexivity|]. split; reflexivity.
Defined.

(** X10.  Along the columns, with an operand of at least one row and a
    primitive that returns a column of [m] entries on every slice: the
    assembly returns a matrix exactly when the operand has no more columns
    than rows, and raises [ValueError] otherwise. *)
Theorem axis0_returns_iff (self : AxisAtom.t) (values : list ndarray)
    (v : ndarray) (m n : nat) :
  axis self = Some 0%Z ->
  arg0_size self = (m, n) ->
  nth_error values 0 = Some v ->
  shape1 v = n ->
  (1 <= m)%nat ->
  (forall i, (i < n)%nat ->
     exists d, _column_grad self (col_entries v i) = Some d /\
               shape0 d = m /\ shape1 d = 1%nat) ->
  ((exists D, _axis_grad self values = Returned [Some D]) <-> (n <= m)%nat) /\
  ((m < n)%nat -> _axis_grad self values = Raised ValueError).
Proof.
  intros Hax Hsize Hv Hn Hm Hprim.
  assert (Hwide : (m < n)%nat -> _axis_grad self values = Raised ValueError).
  { intros Hmn.
    apply (axis0_wide_operand_raises self values v m n Hsize Hv Hax Hn Hm Hmn).
    intros i Hi. destruct (Hprim i Hi) as (d & Hd & _ & H1).
    exists d. split; [done | lia]. }
  split; [|exact Hwide]. split.
  - intros [D HD]. destruct (Nat.le_gt_cases n m) as [|Hmn]; [done|].
    rewrite (Hwide Hmn) in HD. discriminate HD.
  - intros Hle.
    destruct (stitch_slices (_column_grad self) (col_entries v)
                (row_axis0 m n) (col_axis m) (fun i j => (i * n + j)%nat)
                m (m * n) n) as (D & HD & _).
    + intros i _. apply row_axis0_cast.
    + intros i. apply col_axis_cast.
    + intros i j Hi Hj. nia.
    + intros i j j' _ _ _ H. lia.
    + intros i Hi. destruct (Hprim i Hi) as (d & Hd & Hk & H1).
      exists d. repeat split; [done | done | lia].
    + exists D. rewrite (axis_grad_axis0 self values v m n Hsize Hv Hax Hn).
      rewrite HD. reflexivity.
Qed.

Lemma axis0_returns_iff_example :
  ((exists D, _axis_grad (AxisAtom.mk (Some 0%Z) (2, 3)%nat grad_id)
                         [array_of_rows [[1; 2; 3]; [4; 5; 6]]%Z]
              = Returned [Some D]) <-> (3 <= 2)%nat) /\
  ((2 < 3)%nat ->
   _axis_grad (AxisAtom.mk (Some 0%Z) (2, 3)%nat grad_id)
              [array_of_rows [[1; 2; 3]; [4; 5; 6]]%Z] = Raised ValueError).
Proof.
  apply (axis0_returns_iff
           (AxisAtom.mk (Some 0%Z) (2, 3)%nat grad_id)
           [array_of_rows [[1; 2; 3]; [4; 5; 6]]%Z]
           (array_of_rows [[1; 2; 3]; [4; 5; 6]]%Z) 2 3);
    try reflexivity.
  - lia.
  - intros i _. eexists. split; [reflexivity|]. split; reflexivity.
Defined.

(** ** The rows the loops write *)

(** X11.  Along the rows, slice [i] writes exactly the rows below [m*n]
    that are congruent to [i] modulo [m]: the [m] slices share no row and
    together cover every row of the matrix. *)
Theorem axis1_rows_iff (m n i : nat) (r : Z) :
  (i < m)%nat ->
  (In r (map astype_int (row_axis1 m n i)) <->
   (0 <= r < Z.of_nat (m * n))%Z /\ (r mod Z.of_nat m = Z.of_nat i)%Z).
Proof.
  intros Hi. rewrite row_axis1_cast. split.
  - intros Hr. apply in_map_iff in Hr as (j & <- & Hj). apply in_seq in Hj.
    split; [nia|].
    rewrite Nat2Z.inj_add, Nat2Z.inj_mul, Z.mod_add by lia.
    apply Z.mod_small. lia.
  - intros [Hr Hmod]. apply in_map_iff.
    exists (Z.to_nat (r / Z.of_nat m)).
    assert (Hq : (0 <= r / Z.of_nat m < Z.of_nat n)%Z).
    { split; [apply Z.div_pos; lia|].
      apply Z.div_lt_upper_bound; [lia|]. nia. }
    split.
    + rewrite Nat2Z.inj_add, Nat2Z.inj_mul, Z2Nat.id by lia.
      rewrite <- Hmod. rewrite (Z.div_mod r (Z.of_nat m)) at 3 by lia. lia.
    + apply in_seq. lia.
Qed.

Lemma axis1_rows_iff_example :
  In 5%Z (map astype_int (row_axis1 2 3 1)) <->
  (0 <= 5 < Z.of_nat (2 * 3))%Z /\ (5 mod Z.of_nat 2 = Z.of_nat 1)%Z.
Proof. apply (axis1_rows_iff 2 3 1 5). lia. Defined.

(** X12.  Along the columns, for an operand of at least one row and two
    columns: the rows of the slices all lie inside the matrix and those of
    distinct slices are disjoint exactly when the operand is square. *)
Theorem axis0_rows_well_formed_iff_square (m n : nat) :
  (1 <= m)%nat -> (2 <= n)%nat ->
  ((forall i r, (i < n)%nat -> In r (map astype_int (row_axis0 m n i)) ->
      (0 <= r < Z.of_nat (m * n))%Z) /\
   (forall i i' r, (i < n)%nat -> (i' < n)%nat -> i <> i' ->
      In r (map astype_int (row_axis0 m n i)) ->
      ~ In r (map astype_int (row_axis0 m n i')))) <->
  m = n.
Proof.
  intros Hm Hn. split.
  - intros [Hinside Hdisjoint].
    destruct (Nat.lt_trichotomy m n) as [Hlt|[Heq|Hgt]]; [|exact Heq|].
    + destruct (axis0_last_row_outside m n Hm Hlt) as [Hin Hout].
      apply Hinside in Hin; lia.
    + destruct (axis0_rows_overlap m n 0 Hgt) as [H0 H1].
      exfalso.
      exact (Hdisjoint 0%nat 1%nat _ ltac:(lia) ltac:(lia) ltac:(lia) H0 H1).
  - intros <-. split.
    + intros i r Hi Hr. rewrite row_axis0_cast in Hr.
      apply in_map_iff in Hr as (j & <- & Hj). apply in_seq in Hj. nia.
    + intros i i' r _ _ Hne. by apply axis0_rows_disjoint.
Qed.

Lemma axis0_rows_well_formed_iff_square_example :
  ((forall i r, (i < 2)%nat -> In r (map astype_int (row_axis0 3 2 i)) ->
      (0 <= r < Z.of_nat (3 * 2))%Z) /\
   (forall i i' r, (i < 2)%nat -> (i' < 2)%nat -> i <> i' ->
      In r (map astype_int (row_axis0 3 2 i)) ->
      ~ In r (map astype_int (row_axis0 3 2 i')))) <->
  3%nat = 2%nat.
Proof. apply (axis0_rows_well_formed_iff_square 3 2); lia. Defined.

(** X13.  The row to which either loop sends the [j]-th entry of a slice,
    against the vector the [None] branch hands to the primitive: along the
    rows it is the position of that entry in the vector, for every
    operand; along the columns it is, for a square operand. *)
Theorem axis_rows_follow_flattening (v : ndarray) (m n : nat) :
  shape0 v = m -> shape1 v = n ->
  (forall i j, (i < m)%nat -> (j < n)%nat ->
     exists p, nth j (map astype_int (row_axis1 m n i)) 0%Z = Z.of_nat p /\
       (p < m * n)%nat /\
       nth p (ravel (transpose v)) 0%Z
       = nth j (col_entries (transpose v) i) 0%Z) /\
  (m = n ->
   forall i j, (i < n)%nat -> (j < m)%nat ->
     exists p, nth j (map astype_int (row_axis0 m n i)) 0%Z = Z.of_nat p /\
       (p < m * n)%nat /\
       nth p (ravel (transpose v)) 0%Z = nth j (col_entries v i) 0%Z).
Proof.
  intros Hm Hn. split.
  - intros i j Hi Hj. exists (i + j * m)%nat.
    rewrite row_axis1_cast, nth_map_seq by exact Hj.
    split; [reflexivity|]. split; [nia|].
    unfold col_entries. cbn [transpose shape0]. rewrite Hn.
    rewrite nth_map_seq by exact Hj.
    replace (i + j * m)%nat with (j * shape1 (transpose v) + i)%nat
      by (cbn [transpose shape1]; lia).
    apply nth_ravel; cbn [transpose shape0 shape1]; lia.
  - intros Heq i j Hi Hj. exists (i * n + j)%nat.
    rewrite row_axis0_cast, nth_map_seq by exact Hj.
    split; [reflexivity|]. split; [nia|].
    unfold col_entries. rewrite Hm, nth_map_seq by exact Hj.
    replace (i * n + j)%nat with (i * shape1 (transpose v) + j)%nat
      by (cbn [transpose shape1]; lia).
    rewrite nth_ravel; [reflexivity | cbn; lia | cbn; lia].
Qed.

Lemma axis_rows_follow_flattening_example :
  (forall i j, (i < 2)%nat -> (j < 3)%nat ->
     exists p, nth j (map astype_int (row_axis1 2 3 i)) 0%Z = Z.of_nat p /\
       (p < 2 * 3)%nat /\
       nth p (ravel (transpose (array_of_rows [[1; 2; 3]; [4; 5; 6]]%Z))) 0%Z
       = nth j (col_entries (transpose (array_of_rows [[1; 2; 3]; [4; 5; 6]]%Z)) i)
             0%Z) /\
  (2%nat = 3%nat ->
   forall i j, (i < 3)%nat -> (j < 2)%nat ->
     exists p, nth j (map astype_int (row_axis0 2 3 i)) 0%Z = Z.of_nat p /\
       (p < 2 * 3)%nat /\
       nth p (ravel (transpose (array_of_rows [[1; 2; 3]; [4; 5; 6]]%Z))) 0%Z
       = nth j (col_entries (array_of_rows [[1; 2; 3]; [4; 5; 6]]%Z) i) 0%Z).
Proof.
  apply (axis_rows_follow_flattening
           (array_of_rows [[1; 2; 3]; [4; 5; 6]]%Z) 2 3); reflexivity.
Defined.

(** ** The whole matrix *)

(** A step that continues has written inside the matrix. *)
Lemma slice_step_rows_inside (prim : list Z -> option ndarray)
    (value : list Z) (row col : list Q) (f : nat -> nat) (c0 k M N : nat)
    (D D' : csc_matrix) :
  slice_step prim value row col (M, N) D = Returned (Continue D') ->
  map astype_int row = map (fun j => Z.of_nat (f j)) (seq 0 k) ->
  map astype_int col = repeat (Z.of_nat c0) k ->
  forall j, (j < k)%nat -> (f j < M)%nat.
Proof.
  intros H Hrow Hcol. unfold slice_step in H.
  destruct (prim value) as [d|]; [|discriminate H].
  cbn [attr_T Py.bind] in H.
  destruct (first_row (transpose d)) as [d0|]; [|discriminate H].
  cbn [Py.bind] in H.
  destruct (csc_of_triples d0 row col (M, N)) as [E|] eqn:HE; [|discriminate H].
  by destruct (csc_of_triples_returned _ _ _ f c0 k M N E Hrow Hcol HE)
    as (_ & Hin & _).
Qed.

Section Inside.
Variables (prim : list Z -> option ndarray) (sl : nat -> list Z).
Variables (rowq colq : nat -> list Q) (f : nat -> nat -> nat).
Variables (k M N : nat).

Hypothesis Hrow : forall i, (i < N)%nat ->
  map astype_int (rowq i) = map (fun j => Z.of_nat (f i j)) (seq 0 k).
Hypothesis Hcol : forall i,
  map astype_int (colq i) = repeat (Z.of_nat i) k.

(** A loop that has run to its end has written inside the matrix only. *)
Lemma stitched_rows_inside (D0 D : csc_matrix) :
  for_in (range N)
    (fun i D => slice_step prim (sl i) (rowq i) (colq i) (M, N) D) D0
  = Returned (Continue D) ->
  forall i j, (i < N)%nat -> (j < k)%nat -> (f i j < M)%nat.
Proof.
  intros H.
  assert (HP : forall c j, (c < 0 + N)%nat -> (j < k)%nat -> (f c j < M)%nat).
  { revert H.
    apply (for_in_seq_partial
             (fun i D => slice_step prim (sl i) (rowq i) (colq i) (M, N) D)
             (fun i (_ : csc_matrix) =>
                forall c j, (c < i)%nat -> (j < k)%nat -> (f c j < M)%nat)
             0 N D0 D).
    - intros; lia.
    - intros i D1 D2 Hi IH Hstep c j Hc Hj.
      destruct (decide (c = i)) as [->|Hne]; [|apply IH; lia].
      apply (slice_step_rows_inside prim (sl i) (rowq i) (colq i) (f i) i k M N
               D1 D2 Hstep); [apply Hrow; lia | apply Hcol | exact Hj]. }
  intros i j Hi Hj. apply HP; lia.
Qed.

End Inside.

(** X14.  Along the rows, a matrix returned by the assembly is the direct
    placement of the slices: its entry at [(r, c)] is entry [r / m] of the
    derivative of row [c] when [c < m], [r < m*n] and [r mod m = c], and
    zero everywhere else. *)
Theorem axis1_closed_form (self : AxisAtom.t) (values : list ndarray)
    (v : ndarray) (m n : nat) (a : Z) (D : csc_matrix) :
  axis self = Some a -> a <> 0%Z ->
  arg0_size self = (m, n) ->
  nth_error values 0 = Some v ->
  shape0 v = m ->
  _axis_grad self values = Returned [Some D] ->
  forall r c, get D r c = placed_axis1 (_column_grad self) v m n r c.
Proof.
  intros Hax Ha Hsize Hv Hm HD.
  apply (axis_grad_axis1_returned self values v m n Hsize Hv a D Hax Ha Hm) in HD.
  apply (stitched_slices (_column_grad self) (col_entries (transpose v))
           (row_axis1 m n) (col_axis n) (fun i j => (i + j * m)%nat)
           n (m * n) m) in HD as (_ & Hhit & Hmiss).
  - intros r c. unfold placed_axis1.
    destruct (Nat.ltb_spec c m) as [Hc|Hc]; cbn [andb];
      [|apply Hmiss; left; lia].
    destruct (Nat.ltb_spec r (m * n)) as [Hr|Hr]; cbn [andb].
    + destruct (Nat.eqb_spec (r mod m) c) as [Hmod|Hmod].
      * destruct (Hhit c Hc) as (d & Hd & _ & _ & Hg). rewrite Hd.
        assert (Hq : (r / m < n)%nat)
          by (apply Nat.Div0.div_lt_upper_bound; lia).
        rewrite <- (Hg (r / m)%nat Hq). f_equal.
        rewrite (Nat.div_mod_eq r m) at 1. lia.
      * apply Hmiss. right. intros j Hj E. apply Hmod. rewrite <- E.
        rewrite Nat.Div0.mod_add. by apply Nat.mod_small.
    + apply Hmiss. right. intros j Hj E. nia.
  - intros i _. apply row_axis1_cast.
  - intros i. apply col_axis_cast.
  - intros i j j' Hi _ _ H. nia.
Qed.

Lemma axis1_closed_form_example :
  _axis_grad (AxisAtom.mk (Some 1%Z) (2, 2)%nat grad_id)
             [array_of_rows [[1; 2]; [3; 4]]%Z]
  = Returned [Some (mk_csc (4, 2)%nat
      (list_to_map [((0, 0), 1%Z); ((2, 0), 2%Z); ((1, 1), 3%Z); ((3, 1), 4%Z)]%nat))] /\
  forall r c,
    get (mk_csc (4, 2)%nat
           (list_to_map [((0, 0), 1%Z); ((2, 0), 2%Z); ((1, 1), 3%Z); ((3, 1), 4%Z)]%nat))
        r c
    = placed_axis1 grad_id (array_of_rows [[1; 2]; [3; 4]]%Z) 2 2 r c.
Proof.
  assert (H : _axis_grad (AxisAtom.mk (Some 1%Z) (2, 2)%nat grad_id)
                [array_of_rows [[1; 2]; [3; 4]]%Z]
              = Returned [Some (mk_csc (4, 2)%nat
                  (list_to_map [((0, 0), 1%Z); ((2, 0), 2%Z);
                                ((1, 1), 3%Z); ((3, 1), 4%Z)]%nat))])
    by (vm_compute; reflexivity).
  split; [exact H|].
  apply (axis1_closed_form
           (AxisAtom.mk (Some 1%Z) (2, 2)%nat grad_id)
           [array_of_rows [[1; 2]; [3; 4]]%Z]
           (array_of_rows [[1; 2]; [3; 4]]%Z) 2 2 1%Z);
    [reflexivity | discriminate | reflexivity | reflexivity | reflexivity
    | exact H].
Defined.

(** X15.  Along the columns, a matrix returned by the assembly is the
    direct placement of the slices at the rows the loop computes: its
    entry at [(r, c)] is entry [r - c*n] of the derivative of column [c]
    when [c < n] and [c*n <= r < c*n + m], and zero everywhere else; every
    nonzero entry lies inside the shape [(m*n, n)]. *)
Theorem axis0_closed_form (self : AxisAtom.t) (values : list ndarray)
    (v : ndarray) (m n : nat) (D : csc_matrix) :
  axis self = Some 0%Z ->
  arg0_size self = (m, n) ->
  nth_error values 0 = Some v ->
  shape1 v = n ->
  _axis_grad self values = Returned [Some D] ->
  (forall r c, get D r c = placed_axis0 (_column_grad self) v m n r c) /\
  (forall r c, get D r c <> 0%Z -> (r < m * n)%nat /\ (c < n)%nat).
Proof.
  intros Hax Hsize Hv Hn HD.
  apply (axis_grad_axis0_returned self values v m n Hsize Hv D Hax Hn) in HD.
  pose proof (stitched_rows_inside (_column_grad self) (col_entries v)
                (row_axis0 m n) (col_axis m) (fun i j => (i * n + j)%nat)
                m (m * n) n
                (fun i _ => row_axis0_cast m n i) (col_axis_cast m)
                _ D HD) as Hinside.
  apply (stitched_slices (_column_grad self) (col_entries v)
           (row_axis0 m n) (col_axis m) (fun i j => (i * n + j)%nat)
           m (m * n) n) in HD as (_ & Hhit & Hmiss).
  - assert (Hform : forall r c,
              get D r c = placed_axis0 (_column_grad self) v m n r c).
    { intros r c. unfold placed_axis0.
      destruct (Nat.ltb_spec c n) as [Hc|Hc]; cbn [andb];
        [|apply Hmiss; left; lia].
      destruct (Nat.leb_spec (c * n) r) as [Hlo|Hlo]; cbn [andb];
        [|apply Hmiss; right; intros j Hj; lia].
      destruct (Nat.ltb_spec r (c * n + m)) as [Hhi|Hhi];
        [|apply Hmiss; right; intros j Hj; lia].
      destruct (Hhit c Hc) as (d & Hd & _ & _ & Hg). rewrite Hd.
      rewrite <- (Hg (r - c * n)%nat) by lia. f_equal. lia. }
    split; [exact Hform|].
    intros r c Hnz. rewrite Hform in Hnz. unfold placed_axis0 in Hnz.
    destruct (Nat.ltb_spec c n) as [Hc|Hc]; cbn [andb] in Hnz; [|done].
    destruct (Nat.leb_spec (c * n) r) as [Hlo|Hlo]; cbn [andb] in Hnz; [|done].
    destruct (Nat.ltb_spec r (c * n + m)) as [Hhi|Hhi]; [|done].
    split; [|exact Hc].
    specialize (Hinside c (r - c * n)%nat Hc). cbv beta in Hinside. lia.
  - intros i _. apply row_axis0_cast.
  - intros i. apply col_axis_cast.
  - intros i j j' _ _ _ H. lia.
Qed.

Lemma axis0_closed_form_example :
  (forall r c,
     get (mk_csc (6, 2)%nat
            (list_to_map [((0, 0), 1%Z); ((1, 0), 3%Z); ((2, 0), 5%Z);
                          ((2, 1), 2%Z); ((3, 1), 4%Z); ((4, 1), 6%Z)]%nat))
         r c
     = placed_axis0 grad_id (array_of_rows [[1; 2]; [3; 4]; [5; 6]]%Z) 3 2 r c) /\
  (forall r c,
     get (mk_csc (6, 2)%nat
            (list_to_map [((0, 0), 1%Z); ((1, 0), 3%Z); ((2, 0), 5%Z);
                          ((2, 1), 2%Z); ((3, 1), 4%Z); ((4, 1), 6%Z)]%nat))
         r c <> 0%Z -> (r < 3 * 2)%nat /\ (c < 2)%nat).
Proof.
  apply (axis0_closed_form
           (AxisAtom.mk (Some 0%Z) (3, 2)%nat grad_id)
           [array_of_rows [[1; 2]; [3; 4]; [5; 6]]%Z]
           (array_of_rows [[1; 2]; [3; 4]; [5; 6]]%Z) 3 2);
    [reflexivity | reflexivity | reflexivity | reflexivity
    | vm_compute; reflexivity].
Defined.

(** ** What the assembly reads *)

Lemma slice_step_ext (prim1 prim2 : list Z -> option ndarray)
    (value : list Z) (row col : list Q) (shp : nat * nat) (D : csc_matrix) :
  prim1 value = prim2 value ->
  slice_step prim1 value row col shp D = slice_step prim2 value row col shp D.
Proof. unfold slice_step. by intros ->. Qed.

(** X16.  The assembly reads the first value only, and the primitive only
    at the slices of that value (its flattening, its columns, its rows):
    two instances of the same axis and size whose primitives agree there
    give the same result, whatever further values they are given. *)
Theorem axis_grad_frame (self1 self2 : AxisAtom.t)
    (values1 values2 : list ndarray) (v : ndarray) (m n : nat) :
  axis self1 = axis self2 ->
  arg0_size self1 = (m, n) -> arg0_size self2 = (m, n) ->
  nth_error values1 0 = Some v -> nth_error values2 0 = Some v ->
  shape0 v = m -> shape1 v = n ->
  _column_grad self1 (ravel (transpose v))
    = _column_grad self2 (ravel (transpose v)) ->
  (forall i, (i < n)%nat ->
     _column_grad self1 (col_entries v i) = _column_grad self2 (col_entries v i)) ->
  (forall i, (i < m)%nat ->
     _column_grad self1 (col_entries (transpose v) i)
       = _column_grad self2 (col_entries (transpose v) i)) ->
  _axis_grad self1 values1 = _axis_grad self2 values2.
Proof.
  intros Hax Hs1 Hs2 Hv1 Hv2 Hm Hn Hflat Hcols Hrows.
  destruct (axis self2) as [a|] eqn:Hax2.
  - destruct (Z.eq_dec a 0%Z) as [->|Ha].
    + rewrite (axis_grad_axis0 self1 values1 v m n Hs1 Hv1 Hax Hn).
      rewrite (axis_grad_axis0 self2 values2 v m n Hs2 Hv2 Hax2 Hn).
      f_equal. apply for_in_ext. intros i D Hi. apply in_seq in Hi.
      apply slice_step_ext, Hcols. lia.
    + rewrite (axis_grad_axis1 self1 values1 v m n Hs1 Hv1 a Hax Ha Hm).
      rewrite (axis_grad_axis1 self2 values2 v m n Hs2 Hv2 a Hax2 Ha Hm).
      f_equal. apply for_in_ext. intros i D Hi. apply in_seq in Hi.
      apply slice_step_ext, Hrows. lia.
  - unfold _axis_grad, getitem. rewrite Hax, Hax2, Hs1, Hs2, Hv1, Hv2.
    cbn [Py.bind fst snd]. unfold reshape_column.
    destruct (Nat.eqb _ _); cbn [Py.bind]; [|reflexivity].
    by rewrite Hflat.
Qed.

Lemma axis_grad_frame_example :
  _axis_grad (AxisAtom.mk (Some 1%Z) (2, 2)%nat grad_id)
             [array_of_rows [[1; 2]; [3; 4]]%Z]
  = _axis_grad (AxisAtom.mk (Some 1%Z) (2, 2)%nat grad_unless_negative)
               [array_of_rows [[1; 2]; [3; 4]]%Z; array_of_rows [[-1]]%Z].
Proof.
  apply (axis_grad_frame
           (AxisAtom.mk (Some 1%Z) (2, 2)%nat grad_id)
           (AxisAtom.mk (Some 1%Z) (2, 2)%nat grad_unless_negative)
           [array_of_rows [[1; 2]; [3; 4]]%Z]
           [array_of_rows [[1; 2]; [3; 4]]%Z; array_of_rows [[-1]]%Z]
           (array_of_rows [[1; 2]; [3; 4]]%Z) 2 2);
    try reflexivity.
  - intros [|[|i]] Hi; [reflexivity | reflexivity | lia].
  - intros [|[|i]] Hi; [reflexivity | reflexivity | lia].
Defined.
